(** * StaticWeb: the static-web resolution middleware of swift

    A shallow embedding of [swift/common/middleware/staticweb.py] and the
    properties of its resolution engine, metadata resolver and listing
    renderer.

    The middleware is a WSGI filter.  Its Python object [self] carries
    registers that every sub-request overwrites, so the handlers are
    embedded in a state-and-exception monad over a [world] that holds
    [self], the shared metadata cache, the state of the backend behind
    [self.app] and the trace of everything the middleware did. *)

From Stdlib Require Import ZArith String Ascii List Lia DecimalString.
From stdpp Require Import base option gmap strings list fin_maps.

Local Open Scope string_scope.
Local Open Scope list_scope.

(** ** Python byte strings

    Python 2 [str] values are byte strings; [string] (a list of 8-bit
    [ascii]) has the same shape.  Each helper below is the [str] method or
    the standard-library function the middleware calls. *)

Module PyStr.

(** The double quote and the newline, as characters. *)
Definition dq : string := String (ascii_of_nat 34) EmptyString.
Definition nl : string := String (ascii_of_nat 10) EmptyString.

(** [q s] is [s] between double quotes, as in an HTML attribute. *)
Definition q (s : string) : string := dq +:+ s +:+ dq.

(** [s[-1]]: the last character; [None] stands for [IndexError]. *)
Fixpoint last_char (s : string) : option ascii :=
  match s with
  | EmptyString => None
  | String c EmptyString => Some c
  | String _ s' => last_char s'
  end.

(** [s[n:]]. *)
Fixpoint drop (n : nat) (s : string) : string :=
  match n, s with
  | O, _ => s
  | S _, EmptyString => EmptyString
  | S n', String _ s' => drop n' s'
  end.

(** [s.startswith(p)]. *)
Fixpoint startswith (p s : string) : bool :=
  match p, s with
  | EmptyString, _ => true
  | String a p', String b s' => if Ascii.eqb a b then startswith p' s' else false
  | String _ _, EmptyString => false
  end.

(** [s.replace(c, r)] for a one-character pattern [c]. *)
Fixpoint replace (c : ascii) (r : string) (s : string) : string :=
  match s with
  | EmptyString => EmptyString
  | String a s' =>
      if Ascii.eqb a c then r +:+ replace c r s' else String a (replace c r s')
  end.

(** [s.split(c)] for a one-character separator: always at least one piece. *)
Fixpoint split (c : ascii) (s : string) : list string :=
  match s with
  | EmptyString => [EmptyString]
  | String a s' =>
      if Ascii.eqb a c then EmptyString :: split c s'
      else match split c s' with
           | [] => [String a EmptyString]
           | p :: ps => String a p :: ps
           end
  end.

(** [s.split(c, 1)[0]]: the text before the first [c]. *)
Fixpoint before (c : ascii) (s : string) : string :=
  match s with
  | EmptyString => EmptyString
  | String a s' => if Ascii.eqb a c then EmptyString else String a (before c s')
  end.

(** [sep.join(l)]. *)
Fixpoint join (sep : string) (l : list string) : string :=
  match l with
  | [] => EmptyString
  | [x] => x
  | x :: l' => x +:+ sep +:+ join sep l'
  end.

Definition is_upper (c : ascii) : bool :=
  let n := nat_of_ascii c in (65 <=? n)%nat && (n <=? 90)%nat.
Definition is_lower (c : ascii) : bool :=
  let n := nat_of_ascii c in (97 <=? n)%nat && (n <=? 122)%nat.
Definition is_digit (c : ascii) : bool :=
  let n := nat_of_ascii c in (48 <=? n)%nat && (n <=? 57)%nat.

(** [s.lower()] on ASCII letters. *)
Definition lower_char (c : ascii) : ascii :=
  if is_upper c then ascii_of_nat (nat_of_ascii c + 32) else c.
Fixpoint lower (s : string) : string :=
  match s with
  | EmptyString => EmptyString
  | String c s' => String (lower_char c) (lower s')
  end.

(** The characters [str.strip()] removes: space, tab, newline, carriage
    return, vertical tab and form feed. *)
Definition is_space (c : ascii) : bool :=
  let n := nat_of_ascii c in (n =? 32)%nat || ((9 <=? n)%nat && (n <=? 13)%nat).

Fixpoint lstrip (s : string) : string :=
  match s with
  | EmptyString => EmptyString
  | String c s' => if is_space c then lstrip s' else s
  end.

(** [rstrip] keeps a character when it is not a space or when something
    survives to its right. *)
Fixpoint rstrip (s : string) : string :=
  match s with
  | EmptyString => EmptyString
  | String c s' =>
      match rstrip s' with
      | EmptyString => if is_space c then EmptyString else String c EmptyString
      | r => String c r
      end
  end.

Definition strip (s : string) : string := rstrip (lstrip s).

(** [int(s)] restricted to what a status line can start with: a non-empty
    run of decimal digits.  [None] stands for [ValueError]. *)
Fixpoint digits_value (acc : Z) (s : string) : option Z :=
  match s with
  | EmptyString => Some acc
  | String c s' =>
      if is_digit c
      then digits_value (10 * acc + Z.of_nat (nat_of_ascii c - 48)) s'
      else None
  end.

Definition int_of_str (s : string) : option Z :=
  match s with
  | EmptyString => None
  | _ => digits_value 0 s
  end.

(** ['%s' % n] for an integer [n]. *)
Definition str_of_int (n : Z) : string :=
  NilZero.string_of_int (Z.to_int n).

(** *** [urllib.quote(s)] with its default [safe='/'] *)

Definition always_safe (c : ascii) : bool :=
  is_upper c || is_lower c || is_digit c
  || Ascii.eqb c "_" || Ascii.eqb c "." || Ascii.eqb c "-".

Definition hex_digit (n : nat) : ascii :=
  if (n <? 10)%nat then ascii_of_nat (48 + n) else ascii_of_nat (55 + n).

(** ['%%%02X' % ord(c)]. *)
Definition percent_hex (c : ascii) : string :=
  let n := nat_of_ascii c in
  String "%" (String (hex_digit (n / 16)) (String (hex_digit (n mod 16)) EmptyString)).

Definition quote_char (c : ascii) : string :=
  if always_safe c || Ascii.eqb c "/" then String c EmptyString else percent_hex c.

Fixpoint quote (s : string) : string :=
  match s with
  | EmptyString => EmptyString
  | String c s' => quote_char c +:+ quote s'
  end.

(** *** [cgi.escape(s, quote)]

    The source replaces [&] first, then [<], then [>], and the double
    quote only when [quote] is set. *)
Definition escape (s : string) (quote_flag : bool) : string :=
  let s := replace "&" "&amp;" s in
  let s := replace "<" "&lt;" s in
  let s := replace ">" "&gt;" s in
  if quote_flag then replace (ascii_of_nat 34) "&quot;" s else s.

End PyStr.

(** ** WSGI data *)

(** A value of the WSGI environment: a string, or the handle of the shared
    memcache client that the cache middleware stores under [swift.cache]. *)
Inductive env_value : Type :=
| EStr (s : string)
| ECache.

#[global] Instance env_value_eq_dec : EqDecision env_value.
Proof. solve_decision. Defined.

(** The WSGI environment is a Python dict with string keys. *)
Abbreviation env := (gmap string env_value).

Abbreviation header_list := (list (string * string)).

(** What a WSGI application hands back: the arguments of its one call to
    [start_response] and the iterable of body chunks it returns. *)
Record wsgi_reply : Type := Reply {
  status : string;
  headers : header_list;
  exc_info : option string;
  body : list string
}.

#[global] Instance wsgi_reply_eq_dec : EqDecision wsgi_reply.
Proof. solve_decision. Defined.

(** The tuple [(index, error, listing_css)] stored in the cache. *)
Abbreviation web_config := (string * string * string)%type.

(** One entry of a JSON container listing. *)
Inductive item : Type :=
| Subdir (subdir : string)
| Object (name : string) (bytes : Z) (content_type : string) (last_modified : string).

#[global] Instance item_eq_dec : EqDecision item.
Proof. solve_decision. Defined.

(** Everything the middleware does that another party can observe, in the
    order it happens. *)
Inductive event : Type :=
| EvApp (e : env)
    (* [self.app] (the backend) is called with environment [e] *)
| EvStart (st : string) (h : header_list) (x : option string)
    (* the client's [start_response] is called *)
| EvCacheGet (k : string)
| EvCacheSet (k : string) (v : web_config) (timeout : Z)
| EvCacheDelete (k : string).

#[global] Instance event_eq_dec : EqDecision event.
Proof. solve_decision. Defined.

(** Python exceptions the embedded code can raise. *)
Inductive exn : Type := IndexError | KeyError | ValueError | AttributeError | TypeError.

Inductive outcome (A : Type) : Type :=
| Return (a : A)
| Raise (e : exn).
Arguments Return {A} a.
Arguments Raise {A} e.

(** The registers of the middleware object [self]. *)
Record self_t : Type := Self {
  cache_timeout : Z;
  _response_status : option string;
  _response_headers : option header_list;
  _response_exc_info : option string;
  _index : option string;
  _error : option string;
  _listing_css : option string;
  version : option string;
  account : option string;
  container : option string;
  obj : option string
}.

(** Python truthiness of a value that is [None] or a [str]. *)
Definition truthy (o : option string) : bool :=
  match o with
  | None | Some EmptyString => false
  | Some _ => true
  end.

(** ['%s' % x] for a value that is [None] or a [str]. *)
Definition fmt (o : option string) : string := default "None" o.

(** [n // 100] on a status code. *)
Definition hundreds (n : Z) : Z := (n / 100)%Z.

(** Modelled from the spec: the memcache client ([swift.common.memcached])
    is not among the sources at hand; the spec gives its contract as get,
    set and delete by key with a time to live.  An entry holds its value
    and the instant it expires; the backend does not write these entries. *)
Abbreviation cache_t := (gmap string (web_config * Z)).

Definition cache_get (now : Z) (k : string) (c : cache_t) : option web_config :=
  match c !! k with
  | Some (v, expires) => if (now <? expires)%Z then Some v else None
  | None => None
  end.

Definition cache_set (now : Z) (k : string) (v : web_config) (timeout : Z) (c : cache_t)
    : cache_t :=
  <[k := (v, (now + timeout)%Z)]> c.

Definition cache_delete (k : string) (c : cache_t) : cache_t := delete k c.

(** ** External collaborators *)

(** The backend behind [self.app]: a WSGI application with a state of its
    own.  Called with an environment it answers with one reply. *)
Class Backend : Type := {
  backend_state : Type;
  app : env -> backend_state -> wsgi_reply * backend_state
}.

(** Functions the middleware imports from [swift.common.utils], [json] and
    [webob]; their code is not among the sources at hand, so the embedding
    takes them as parameters.
    - [split_path p] is [split_path(p, 2, 4, True)]; [None] is [ValueError];
    - [TRUE_VALUES] is the constant of that name;
    - [json_loads] parses a listing body; [None] is [ValueError];
    - [environ_from_url p] is the environment [Request.blank(p)] starts from;
    - [exc_headers] and [exc_body] are what a webob HTTP exception with the
      given status line and [location] sends for a request environment;
    - [response_headerlist] and [response_app_iter] are what a webob
      [Response(headers=h, body=b)] sends for a request environment. *)
Class Library : Type := {
  split_path : string -> option (string * string * option string * option string);
  TRUE_VALUES : list string;
  human_readable : Z -> string;
  json_loads : string -> option (list item);
  environ_from_url : string -> env;
  exc_headers : string -> option string -> env -> header_list;
  exc_body : string -> option string -> env -> list string;
  response_headerlist : header_list -> string -> env -> header_list;
  response_app_iter : string -> env -> list string
}.

(** ** The world and the monad of the handlers *)

Record world `{Backend} : Type := World {
  self : self_t;
  cache : cache_t;
  now : Z;
  backend : backend_state;
  trace : list event
}.

Definition M `{Backend} (A : Type) : Type := world -> outcome A * world.

#[global] Instance M_ret `{Backend} : MRet M := fun A a w => (Return a, w).

#[global] Instance M_bind `{Backend} : MBind M := fun A B f m w =>
  match m w with
  | (Return a, w') => f a w'
  | (Raise e, w') => (Raise e, w')
  end.

(** A [start_response] callable. *)
Abbreviation hook := (string -> header_list -> option string -> M unit).

Section Primitives.
Context {BE : Backend}.

Definition raise {A : Type} (e : exn) : M A := fun w => (Raise e, w).

Definition get_self : M self_t := fun w => (Return (self w), w).

Definition modify_self (f : self_t -> self_t) : M unit := fun w =>
  (Return tt, World _ (f (self w)) (cache w) (now w) (backend w) (trace w)).

Definition emit (ev : event) : M unit := fun w =>
  (Return tt, World _ (self w) (cache w) (now w) (backend w) (trace w ++ [ev])).

(** A value that must not be [None] where it is used. *)
Definition required {A : Type} (o : option A) : M A :=
  match o with
  | Some a => mret a
  | None => raise TypeError
  end.

(** [env[k]] for a key that holds a string. *)
Definition env_str (e : env) (k : string) : M string :=
  match e !! k with
  | Some (EStr s) => mret s
  | Some ECache => raise TypeError
  | None => raise KeyError
  end.

(** [memcache_client.get(k)], [.set(k, v, timeout=t)] and [.delete(k)]. *)
Definition memcache_get (k : string) : M (option web_config) := fun w =>
  (Return (cache_get (now w) k (cache w)),
   World _ (self w) (cache w) (now w) (backend w) (trace w ++ [EvCacheGet k])).

Definition memcache_set (k : string) (v : web_config) (t : Z) : M unit := fun w =>
  (Return tt,
   World _ (self w) (cache_set (now w) k v t (cache w)) (now w) (backend w)
     (trace w ++ [EvCacheSet k v t])).

Definition memcache_delete (k : string) : M unit := fun w =>
  (Return tt,
   World _ (self w) (cache_delete k (cache w)) (now w) (backend w)
     (trace w ++ [EvCacheDelete k])).

(** The backend is called with [e]; its reply is returned to the caller. *)
Definition backend_call (e : env) : M wsgi_reply := fun w =>
  let '(r, b) := app e (backend w) in
  (Return r, World _ (self w) (cache w) (now w) b (trace w ++ [EvApp e])).

(** The [start_response] of the remote client.  A WSGI server refuses a
    status or a header list that is [None]. *)
Definition client_start_response : hook := fun st h x => emit (EvStart st h x).

Definition call_hook (sr : hook) (st : option string) (h : option header_list)
    (x : option string) : M unit :=
  st' ← required st; h' ← required h; sr st' h' x.

(** A WSGI application object whose reply is [r], called with [sr]. *)
Definition wsgi_call (r : wsgi_reply) (sr : hook) : M (list string) :=
  sr (status r) (headers r) (exc_info r);; mret (body r).

(** [self.app(e, sr)]. *)
Definition self_app (e : env) (sr : hook) : M (list string) :=
  r ← backend_call e; wsgi_call r sr.

End Primitives.

(** ** webob *)

Section Webob.
Context {LIB : Library}.

Definition HTTPNotFound (e : env) : wsgi_reply :=
  let st := "404 Not Found" in
  Reply st (exc_headers st None e) None (exc_body st None e).

Definition HTTPMovedPermanently (location : string) (e : env) : wsgi_reply :=
  let st := "301 Moved Permanently" in
  Reply st (exc_headers st (Some location) e) None (exc_body st (Some location) e).

Definition Response (h : header_list) (b : string) (e : env) : wsgi_reply :=
  Reply "200 OK" (response_headerlist h b e) None (response_app_iter b e).

(** [Request.blank(path, environ=e).environ]: the defaults for [path]
    updated with [e]. *)
Definition Request_blank (path : string) (e : env) : env :=
  e ∪ environ_from_url path.

End Webob.

(** [resp.headers.get(k, d)]: the last header whose name equals [k] up to
    case. *)
Fixpoint headers_get (h : header_list) (k d : string) : string :=
  match h with
  | [] => d
  | (k', v) :: h' =>
      headers_get h' k (if String.eqb (PyStr.lower k') (PyStr.lower k) then v else d)
  end.

(** [int(status.split(' ', 1)[0])]. *)
Definition status_line_int (st : string) : option Z :=
  PyStr.int_of_str (PyStr.before " " st).

(** ** The listing renderer: the HTML that [_listing] builds *)

Module Html.
Import PyStr.

(** The lines of a template, each ended by a newline. *)
Fixpoint lines (l : list string) : string :=
  match l with
  | [] => EmptyString
  | x :: l' => x +:+ nl +:+ lines l'
  end.

Definition head (path_info : string) : string :=
  lines [ "<!DOCTYPE HTML PUBLIC " +:+ q "-//W3C//DTD HTML 4.01 Transitional//EN"
            +:+ " " +:+ q "http://www.w3.org/TR/html4/loose.dtd" +:+ ">";
          "<html>";
          " <head>";
          "  <title>Listing of " +:+ path_info +:+ "</title>" ].

Definition css_link (v a c css : string) : string :=
  lines [ "  <link rel=" +:+ q "stylesheet" +:+ " type=" +:+ q "text/css" +:+ " href="
            +:+ q ("/" +:+ v +:+ "/" +:+ a +:+ "/" +:+ c +:+ "/" +:+ css) +:+ " />" ].

Definition default_style : string :=
  lines [ "  <style type=" +:+ q "text/css" +:+ ">";
          "   h1 {font-size: 1em; font-weight: bold;}";
          "   th {text-align: left; padding: 0px 1em 0px 1em;}";
          "   td {padding: 0px 1em 0px 1em;}";
          "   a {text-decoration: none;}";
          "  </style>" ].

Definition table_head (path_info : string) : string :=
  lines [ " </head>";
          " <body>";
          "  <h1 id=" +:+ q "title" +:+ ">Listing of " +:+ path_info +:+ "</h1>";
          "  <table id=" +:+ q "listing" +:+ ">";
          "   <tr id=" +:+ q "heading" +:+ ">";
          "    <th class=" +:+ q "colname" +:+ ">Name</th>";
          "    <th class=" +:+ q "colsize" +:+ ">Size</th>";
          "    <th class=" +:+ q "coldate" +:+ ">Date</th>";
          "   </tr>" ].

Definition parent_row : string :=
  lines [ "   <tr id=" +:+ q "parent" +:+ " class=" +:+ q "item" +:+ ">";
          "    <td class=" +:+ q "colname" +:+ "><a href=" +:+ q "../" +:+ ">../</a></td>";
          "    <td class=" +:+ q "colsize" +:+ ">&nbsp;</td>";
          "    <td class=" +:+ q "coldate" +:+ ">&nbsp;</td>";
          "   </tr>" ].

(** The row template of a subdir entry, filled with the link target and
    the displayed text. *)
Definition subdir_row (href text : string) : string :=
  lines [ "   <tr class=" +:+ q "item subdir" +:+ ">";
          "    <td class=" +:+ q "colname" +:+ "><a href=" +:+ q href +:+ ">" +:+ text
            +:+ "</a></td>";
          "    <td class=" +:+ q "colsize" +:+ ">&nbsp;</td>";
          "    <td class=" +:+ q "coldate" +:+ ">&nbsp;</td>";
          "   </tr>" ].

(** The row template of an object entry. *)
Definition object_row (classes href text size date : string) : string :=
  lines [ "   <tr class=" +:+ q ("item " +:+ classes) +:+ ">";
          "    <td class=" +:+ q "colname" +:+ "><a href=" +:+ q href +:+ ">" +:+ text
            +:+ "</a></td>";
          "    <td class=" +:+ q "colsize" +:+ ">" +:+ size +:+ "</td>";
          "    <td class=" +:+ q "coldate" +:+ ">" +:+ date +:+ "</td>";
          "   </tr>" ].

Definition foot : string :=
  lines [ "  </table>"; " </body>"; "</html>" ].

End Html.

Section Renderer.
Context {LIB : Library}.

(** [name[len(prefix):]] when [prefix] is truthy, [name] otherwise. *)
Definition strip_prefix (prefix : option string) (name : string) : string :=
  if truthy prefix then PyStr.drop (String.length (fmt prefix)) name else name.

(** [' '.join('type-' + cgi.escape(t.lower(), quote=True)
             for t in content_type.split('/'))]. *)
Definition type_classes (content_type : string) : string :=
  PyStr.join " "
    (map (fun t => "type-" +:+ PyStr.escape (PyStr.lower t) true)
         (PyStr.split "/" content_type)).

(** [cgi.escape(last_modified).split('.')[0].replace('T', ' ')]. *)
Definition date_column (last_modified : string) : string :=
  PyStr.replace "T" " " (PyStr.before "." (PyStr.escape last_modified false)).

(** The body of the first loop of [_listing]: rows of the subdir entries. *)
Definition subdir_step (prefix : option string) (body : string) (it : item) : string :=
  match it with
  | Subdir subdir =>
      let subdir := strip_prefix prefix subdir in
      body +:+ Html.subdir_row (PyStr.quote subdir) (PyStr.escape subdir false)
  | Object _ _ _ _ => body
  end.

(** The body of the second loop of [_listing]: rows of the object entries. *)
Definition object_step (prefix : option string) (body : string) (it : item) : string :=
  match it with
  | Object name bytes content_type last_modified =>
      let name := strip_prefix prefix name in
      body +:+ Html.object_row (type_classes content_type)
                 (PyStr.quote name) (PyStr.escape name false)
                 (human_readable bytes) (date_column last_modified)
  | Subdir _ => body
  end.

(** What [_listing] has put in [body] when it reaches its loops: the head,
    the style sheet link or the default style, the table head and, under a
    prefix, the parent row. *)
Definition listing_prelude (path_info : string) (s : self_t) (prefix : option string)
    : string :=
  let body := Html.head (PyStr.escape path_info false) in
  let body :=
    if truthy (_listing_css s)
    then body +:+ Html.css_link (fmt (version s)) (fmt (account s)) (fmt (container s))
                    (PyStr.quote (fmt (_listing_css s)))
    else body +:+ Html.default_style in
  let body := body +:+ Html.table_head (PyStr.escape path_info false) in
  if truthy prefix then body +:+ Html.parent_row else body.

(** The document [_listing] accumulates in [body], statement by statement:
    the prelude, the loop over the subdir entries, the loop over the
    object entries, the foot. *)
Definition listing_body (path_info : string) (s : self_t) (prefix : option string)
    (listing : list item) : string :=
  let body := listing_prelude path_info s prefix in
  let body := fold_left (subdir_step prefix) listing body in
  let body := fold_left (object_step prefix) listing body in
  body +:+ Html.foot.

(** ['subdir' in item] and ['name' in item]. *)
Definition is_subdir (it : item) : bool :=
  match it with Subdir _ => true | Object _ _ _ _ => false end.

Definition is_object (it : item) : bool :=
  match it with Subdir _ => false | Object _ _ _ _ => true end.

(** The row that the loops write for one entry. *)
Definition entry_row (prefix : option string) (it : item) : string :=
  match it with
  | Subdir _ => subdir_step prefix EmptyString it
  | Object _ _ _ _ => object_step prefix EmptyString it
  end.

(** The listing as the spec words it: one row per entry, in the order the
    backend returned the entries. *)
Definition listing_in_backend_order (path_info : string) (s : self_t)
    (prefix : option string) (listing : list item) : string :=
  listing_prelude path_info s prefix
    +:+ String.concat EmptyString (map (entry_row prefix) listing)
    +:+ Html.foot.


End Renderer.

(** ** The middleware: class [StaticWeb] *)

Section StaticWeb.
Context {BE : Backend} {LIB : Library}.

Definition set_response (st : string) (h : header_list) (x : option string)
    (s : self_t) : self_t :=
  Self (cache_timeout s) (Some st) (Some h) x (_index s) (_error s) (_listing_css s)
    (version s) (account s) (container s) (obj s).

Definition set_config (i er css : option string) (s : self_t) : self_t :=
  Self (cache_timeout s) (_response_status s) (_response_headers s)
    (_response_exc_info s) i er css (version s) (account s) (container s) (obj s).

Definition set_path (v a c o : option string) (s : self_t) : self_t :=
  Self (cache_timeout s) (_response_status s) (_response_headers s)
    (_response_exc_info s) (_index s) (_error s) (_listing_css s) v a c o.

(** [_start_response]: saves the response info in [self]; nothing is sent
    to the client. *)
Definition _start_response : hook := fun st h x => modify_self (set_response st h x).

(** [_get_status_int]. *)
Definition _get_status_int : M Z :=
  s ← get_self;
  match _response_status s with
  | None => raise AttributeError
  | Some st =>
      match status_line_int st with
      | Some n => mret n
      | None => raise ValueError
      end
  end.

(** [_strip_ifs], on the copy of the dict it is given. *)
Definition _strip_ifs (e : env) : env :=
  filter (fun kv => PyStr.startswith "HTTP_IF_" kv.1 = false) e.

(** ['/%s/%s/%s' % (self.version, self.account, self.container)]. *)
Definition container_path (s : self_t) : string :=
  "/" +:+ fmt (version s) +:+ "/" +:+ fmt (account s) +:+ "/" +:+ fmt (container s).

(** ['/staticweb/%s/%s/%s' % (self.version, self.account, self.container)]. *)
Definition memcache_key (s : self_t) : string :=
  "/staticweb/" +:+ fmt (version s) +:+ "/" +:+ fmt (account s) +:+ "/"
    +:+ fmt (container s).

(** [cache_from_env(env)] is truthy: the environment carries the client. *)
Definition cache_from_env (e : env) : bool :=
  bool_decide (e !! "swift.cache" = Some ECache).

(** The environment of the error-page sub-request of [_error_response]. *)
Definition error_env (cpath : string) (code : Z) (suffix : string) (e : env) : env :=
  let tmp_env := e in
  let tmp_env := _strip_ifs tmp_env in
  let tmp_env :=
    <["PATH_INFO" := EStr (cpath +:+ "/" +:+ PyStr.str_of_int code +:+ suffix)]>
      tmp_env in
  <["REQUEST_METHOD" := EStr "GET"]> tmp_env.

(** [_error_response]. *)
Definition _error_response (response : list string) (e : env) (start_response : hook)
    : M (list string) :=
  s ← get_self;
  if negb (truthy (_error s)) then
    call_hook start_response (_response_status s) (_response_headers s)
      (_response_exc_info s);;
    mret response
  else
    let save_response_status := _response_status s in
    let save_response_headers := _response_headers s in
    let save_response_exc_info := _response_exc_info s in
    code ← _get_status_int;
    let tmp_env := error_env (container_path s) code (fmt (_error s)) e in
    resp ← self_app tmp_env _start_response;
    code' ← _get_status_int;
    if decide (hundreds code' = 2%Z) then
      s' ← get_self;
      call_hook start_response save_response_status (_response_headers s')
        (_response_exc_info s');;
      mret resp
    else
      call_hook start_response save_response_status save_response_headers
        save_response_exc_info;;
      mret response.

(** The [environ] argument of the metadata probe's [Request.blank]. *)
Definition head_probe_env (e : env) : env :=
  let tmp_env : env :=
    <["HTTP_USER_AGENT" := EStr "StaticWeb"]> (<["REQUEST_METHOD" := EStr "HEAD"]> ∅) in
  fold_left
    (fun (tmp_env : env) (name : string) =>
       match e !! name with
       | Some v => <[name := v]> tmp_env
       | None => tmp_env
       end)
    ["swift.cache"; "HTTP_X_CF_TRANS_ID"] tmp_env.

(** The environment of the metadata probe:
    [Request.blank('/%s/%s/%s' % (...), environ=tmp_env)]. *)
Definition container_info_request (cpath : string) (e : env) : env :=
  Request_blank cpath (head_probe_env e).

(** [_get_container_info].  A cached tuple is never empty, so a cache hit
    is a value that is not [None]. *)
Definition _get_container_info (e : env) (start_response : hook) : M unit :=
  modify_self (set_config None None None);;
  let memcache_client := cache_from_env e in
  s ← get_self;
  cached_data ← (if memcache_client then memcache_get (memcache_key s) else mret None);
  match cached_data with
  | Some (i, er, css) => modify_self (set_config (Some i) (Some er) (Some css))
  | None =>
      resp ← backend_call (container_info_request (container_path s) e);
      code ← match status_line_int (status resp) with
             | Some n => mret n
             | None => raise ValueError
             end;
      if decide (hundreds code = 2%Z) then
        let i := PyStr.strip (headers_get (headers resp) "x-container-meta-index" "") in
        let css :=
          PyStr.strip (headers_get (headers resp) "x-container-meta-listing-css" "") in
        let er := PyStr.strip (headers_get (headers resp) "x-container-meta-error" "") in
        modify_self (set_config (Some i) (Some er) (Some css));;
        if memcache_client
        then memcache_set (memcache_key s) (i, er, css) (cache_timeout s)
        else mret tt
      else mret tt
  end.

(** The environment of the listing sub-request of [_listing]. *)
Definition listing_env (cpath : string) (prefix : option string) (e : env) : env :=
  let tmp_env := e in
  let tmp_env := _strip_ifs tmp_env in
  let tmp_env := <["REQUEST_METHOD" := EStr "GET"]> tmp_env in
  let tmp_env := <["PATH_INFO" := EStr cpath]> tmp_env in
  let query := "delimiter=/&format=json" in
  let query :=
    if truthy prefix then query +:+ "&prefix=" +:+ PyStr.quote (fmt prefix) else query in
  <["QUERY_STRING" := EStr query]> tmp_env.

(** [json.loads(''.join(resp))]. *)
Definition load_listing (resp : list string) : M (list item) :=
  match json_loads (String.concat "" resp) with
  | Some l => mret l
  | None => raise ValueError
  end.

(** [_listing]. *)
Definition _listing (e : env) (start_response : hook) (prefix : option string)
    : M (list string) :=
  s ← get_self;
  resp ← self_app (listing_env (container_path s) prefix e) _start_response;
  code ← _get_status_int;
  if decide (hundreds code ≠ 2%Z) then _error_response resp e start_response
  else
    listing ← load_listing resp;
    match listing with
    | [] =>
        resp ← wsgi_call (HTTPNotFound e) _start_response;
        _error_response resp e start_response
    | _ :: _ =>
        let headers := [("Content-Type", "text/html")] in
        path_info ← env_str e "PATH_INFO";
        s ← get_self;
        let body := listing_body path_info s prefix listing in
        wsgi_call (Response headers body e) start_response
    end.

(** [x in (2, 3)]. *)
Definition in_2_3 (x : Z) : bool := bool_decide (x = 2%Z) || bool_decide (x = 3%Z).

(** [env['PATH_INFO'][-1] != '/']. *)
Definition lacks_trailing_slash (path_info : string) : M bool :=
  match PyStr.last_char path_info with
  | Some c => mret (negb (Ascii.eqb c "/"))
  | None => raise IndexError
  end.

(** [_handle_container]. *)
Definition _handle_container (e : env) (start_response : hook) : M (list string) :=
  _get_container_info e start_response;;
  s ← get_self;
  if negb (truthy (_index s)) then self_app e start_response
  else
    path_info ← env_str e "PATH_INFO";
    no_slash ← lacks_trailing_slash path_info;
    if (no_slash : bool) then
      wsgi_call (HTTPMovedPermanently (path_info +:+ "/") e) start_response
    else
      let tmp_env := <["PATH_INFO" := EStr (path_info +:+ fmt (_index s))]> e in
      resp ← self_app tmp_env _start_response;
      status_int ← _get_status_int;
      if decide (status_int = 404%Z) then _listing e start_response None
      else
        code ← _get_status_int;
        if negb (in_2_3 (hundreds code)) then _error_response resp e start_response
        else
          s' ← get_self;
          call_hook start_response (_response_status s') (_response_headers s')
            (_response_exc_info s');;
          mret resp.

(** The environment of the pseudo-directory probe of [_handle_object]. *)
Definition probe_env (cpath : string) (o : string) (e : env) : env :=
  let tmp_env := e in
  let tmp_env := _strip_ifs tmp_env in
  let tmp_env := <["REQUEST_METHOD" := EStr "GET"]> tmp_env in
  let tmp_env := <["PATH_INFO" := EStr cpath]> tmp_env in
  <["QUERY_STRING" :=
      EStr ("limit=1&format=json&delimiter=/&limit=1&prefix=" +:+ PyStr.quote (o +:+ "/"))]>
    tmp_env.

(** [_handle_object].  The value is [None] where the Python function ends
    without a [return]. *)
Definition _handle_object (e : env) (start_response : hook) : M (option (list string)) :=
  let tmp_env := e in
  resp ← self_app tmp_env _start_response;
  status_int ← _get_status_int;
  if in_2_3 (hundreds status_int) then
    s ← get_self;
    call_hook start_response (_response_status s) (_response_headers s)
      (_response_exc_info s);;
    mret (Some resp)
  else if decide (status_int ≠ 404%Z) then
    r ← _error_response resp e start_response; mret (Some r)
  else
    _get_container_info e start_response;;
    s ← get_self;
    if negb (truthy (_index s)) then
      r ← self_app e start_response; mret (Some r)
    else
      path_info ← env_str e "PATH_INFO";
      no_slash ← lacks_trailing_slash path_info;
      let tmp_path := if (no_slash : bool) then path_info +:+ "/" else path_info in
      let tmp_env := <["PATH_INFO" := EStr (tmp_path +:+ fmt (_index s))]> e in
      resp ← self_app tmp_env _start_response;
      status_int ← _get_status_int;
      if in_2_3 (hundreds status_int) then
        if (no_slash : bool) then
          r ← wsgi_call (HTTPMovedPermanently (path_info +:+ "/") e) start_response;
          mret (Some r)
        else
          s' ← get_self;
          call_hook start_response (_response_status s') (_response_headers s')
            (_response_exc_info s');;
          mret (Some resp)
      else if decide (status_int = 404%Z) then
        if (no_slash : bool) then
          o ← match obj s with Some o => mret o | None => raise TypeError end;
          resp ← self_app (probe_env (container_path s) o e) _start_response;
          code ← _get_status_int;
          empty ← (if decide (hundreds code ≠ 2%Z) then mret true
                   else listing ← load_listing resp;
                        mret (match listing with [] => true | _ :: _ => false end));
          if (empty : bool) then
            resp ← wsgi_call (HTTPNotFound e) _start_response;
            r ← _error_response resp e start_response; mret (Some r)
          else
            r ← wsgi_call (HTTPMovedPermanently (path_info +:+ "/") e) start_response;
            mret (Some r)
        else
          r ← _listing e start_response (obj s); mret (Some r)
      else mret None.

(** [env.get(k)] is truthy. *)
Definition env_truthy (e : env) (k : string) : bool :=
  match e !! k with
  | Some (EStr s) => truthy (Some s)
  | Some ECache => true
  | None => false
  end.

(** [env.get('HTTP_X_WEB_MODE', '') in TRUE_VALUES]. *)
Definition web_mode (e : env) : bool :=
  match e !! "HTTP_X_WEB_MODE" with
  | Some (EStr s) => bool_decide (s ∈ TRUE_VALUES)
  | Some ECache => false
  | None => bool_decide (EmptyString ∈ TRUE_VALUES)
  end.

Definition is_write (method : string) : bool :=
  String.eqb method "PUT" || String.eqb method "POST".

Definition is_read (method : string) : bool :=
  String.eqb method "HEAD" || String.eqb method "GET".

(** [__call__]: the entry point of the filter. *)
Definition __call__ (e : env) (start_response : hook) : M (option (list string)) :=
  let forward := r ← self_app e start_response; mret (Some r) in
  path_info ← env_str e "PATH_INFO";
  match split_path path_info with
  | None => forward
  | Some (v, a, c, o) =>
      modify_self (set_path (Some v) (Some a) c o);;
      s ← get_self;
      let memcache_client := cache_from_env e in
      method ← env_str e "REQUEST_METHOD";
      if memcache_client && is_write method then
        (if negb (truthy (obj s)) && truthy (container s)
         then memcache_delete (memcache_key s)
         else mret tt);;
        forward
      else if negb (is_read method) || (env_truthy e "REMOTE_USER" && negb (web_mode e))
      then forward
      else if truthy (obj s) then _handle_object e start_response
      else if truthy (container s) then
        r ← _handle_container e start_response; mret (Some r)
      else forward
  end.

End StaticWeb.

(** ** Worlds along a run *)

Section Worlds.
Context {BE : Backend}.

(** The world after [self.app(e, self._start_response)] was answered with
    [r]: the reply is saved in [self] and nothing is sent to the client. *)
Definition after_saved_call (w : world) (e : env) (r : wsgi_reply)
    (b : backend_state) : world :=
  World _ (set_response (status r) (headers r) (exc_info r) (self w))
    (cache w) (now w) b (trace w ++ [EvApp e]).

(** The world after [self.app(e, start_response)] was answered with [r]:
    the reply goes to the client as it is. *)
Definition after_forward (w : world) (e : env) (r : wsgi_reply)
    (b : backend_state) : world :=
  World _ (self w) (cache w) (now w) b
    (trace w ++ [EvApp e; EvStart (status r) (headers r) (exc_info r)]).

(** The world after a webob application whose reply is [r] was called
    with the client's [start_response]. *)
Definition after_reply (w : world) (r : wsgi_reply) : world :=
  World _ (self w) (cache w) (now w) (backend w)
    (trace w ++ [EvStart (status r) (headers r) (exc_info r)]).

(** The world after a webob application whose reply is [r] was called
    with [self._start_response]. *)
Definition after_saved_reply (w : world) (r : wsgi_reply) : world :=
  World _ (set_response (status r) (headers r) (exc_info r) (self w))
    (cache w) (now w) (backend w) (trace w).

(** The world once [__call__] has stored the split path in [self]. *)
Definition with_path (w : world) (v a : string) (c o : option string) : world :=
  World _ (set_path (Some v) (Some a) c o (self w))
    (cache w) (now w) (backend w) (trace w).

End Worlds.

(** ** Observations on a run *)

Section Observations.
Context {BE : Backend}.

(** The events that [w'] has after those of [w]. *)
Definition new_events (w w' : world) : list event :=
  drop (length (trace w)) (trace w').

(** The environments of the backend calls among [evs], in order. *)
Fixpoint app_envs (evs : list event) : list env :=
  match evs with
  | [] => []
  | EvApp e :: evs' => e :: app_envs evs'
  | _ :: evs' => app_envs evs'
  end.

(** The calls to the client's [start_response] among [evs], in order. *)
Fixpoint client_starts (evs : list event) : list (string * header_list * option string) :=
  match evs with
  | [] => []
  | EvStart st h x :: evs' => (st, h, x) :: client_starts evs'
  | _ :: evs' => client_starts evs'
  end.

Definition method_is (m : string) (e : env) : Prop :=
  e !! "REQUEST_METHOD" = Some (EStr m).

End Observations.

(** ** A concrete deployment, for running the middleware on examples *)

Module Scenario.

(** A backend that answers from a table keyed by method, path and query
    string, and with 404 for what the table does not list. *)
Definition route_key (e : env) : string :=
  let get k := match e !! k with Some (EStr s) => s | _ => EmptyString end in
  get "REQUEST_METHOD" +:+ " " +:+ get "PATH_INFO" +:+ "?" +:+ get "QUERY_STRING".

Fixpoint route (k : string) (t : list (string * wsgi_reply)) : wsgi_reply :=
  match t with
  | [] => Reply "404 Not Found" [] None ["not found"]
  | (k', r) :: t' => if String.eqb k k' then r else route k t'
  end.

#[export] Instance table_backend : Backend := {|
  backend_state := list (string * wsgi_reply);
  app := fun e t => (route (route_key e) t, t)
|}.

(** Listing bodies the example backend sends, already parsed. *)
Definition listings : list (string * list item) :=
  [ ("[]", []);
    ("[dir]", [Subdir "dir/"]);
    ("[a,photos]",
     [Object "a.txt" 12 "text/plain" "2023-01-01T00:00:00.000000"; Subdir "photos/"]);
    ("[photos/a]",
     [Object "photos/a b.txt" 12 "text/plain" "2023-01-01T00:00:00.000000";
      Subdir "photos/old/"]) ].

Fixpoint assoc {A : Type} (k : string) (t : list (string * A)) : option A :=
  match t with
  | [] => None
  | (k', v) :: t' => if String.eqb k k' then Some v else assoc k t'
  end.

(** [split_path(path, 2, 4, True)] on the paths the examples use. *)
Definition paths : list (string * (string * string * option string * option string)) :=
  [ ("/v1/acct", ("v1", "acct", None, None));
    ("/v1/acct/cont", ("v1", "acct", Some "cont", None));
    ("/v1/acct/cont/", ("v1", "acct", Some "cont", Some EmptyString));
    ("/v1/acct/cont/dir", ("v1", "acct", Some "cont", Some "dir"));
    ("/v1/acct/cont/dir/", ("v1", "acct", Some "cont", Some "dir/"));
    ("/v1/acct/cont/secret", ("v1", "acct", Some "cont", Some "secret")) ].

(** The library functions of the examples.  [split_path] and [json_loads]
    are tables of the paths and bodies the examples use; [human_readable]
    prints the number of bytes in decimal; webob sends the status line as
    the body of an HTTP exception and a [Location] header when it is given
    one. *)
#[export] Instance library : Library := {|
  split_path := fun p => assoc p paths;
  TRUE_VALUES := ["true"; "1"; "yes"; "on"; "t"; "y"];
  human_readable := PyStr.str_of_int;
  json_loads := fun b => assoc b listings;
  environ_from_url := fun p =>
    <["PATH_INFO" := EStr p]> (<["REQUEST_METHOD" := EStr "GET"]>
      (<["SERVER_NAME" := EStr "localhost"]> ∅));
  exc_headers := fun st loc e =>
    match loc with
    | Some l => [("Content-Type", "text/html"); ("Location", l)]
    | None => [("Content-Type", "text/html")]
    end;
  exc_body := fun st loc e => [st];
  response_headerlist := fun h b e => h;
  response_app_iter := fun b e => [b]
|}.

Definition self0 : self_t :=
  Self 300 None None None None None None None None None None.

(** [self] while a request for something in [/v1/acct/cont] is handled. *)
Definition self_at (o : option string) : self_t :=
  Self 300 None None None None None None (Some "v1") (Some "acct") (Some "cont") o.

Definition world_of (s : self_t) (c : cache_t) (t : list (string * wsgi_reply)) : world :=
  World table_backend s c 1000 t [].

(** A request without a cache client and one with it. *)
Definition request (method path : string) : env :=
  <["REQUEST_METHOD" := EStr method]> (<["PATH_INFO" := EStr path]> ∅).

Definition cached (e : env) : env := <["swift.cache" := ECache]> e.

(** The reply to the metadata probe of a container with the given
    metadata headers. *)
Definition container_head (h : header_list) : string * wsgi_reply :=
  ("HEAD /v1/acct/cont?", Reply "204 No Content" h None []).

(** Scenario C of the spec: error suffix [error.html], the object GET is
    refused with 403, and [403error.html] exists. *)
Definition forbidden_headers : header_list := [("X-Denied-By", "acl")].
Definition page_headers : header_list :=
  [("Content-Type", "text/html"); ("Content-Length", "14")].

Definition table_C : list (string * wsgi_reply) :=
  [ container_head [("X-Container-Meta-Error", "error.html")];
    ("GET /v1/acct/cont/secret?", Reply "403 Forbidden" forbidden_headers None ["denied"]);
    ("GET /v1/acct/cont/403error.html?",
     Reply "200 OK" page_headers None ["Forbidden page"]) ].

(** [self] when [_error_response] is entered in scenario C. *)
Definition self_C : self_t :=
  Self 300 (Some "403 Forbidden") (Some forbidden_headers) None
    (Some EmptyString) (Some "error.html") (Some EmptyString)
    (Some "v1") (Some "acct") (Some "cont") (Some "secret").

End Scenario.

Module ScenarioC.
Import Scenario.

Definition request_C : env := request "GET" "/v1/acct/cont/secret".
Definition world_C : world := world_of self_C ∅ table_C.
Definition page_C : wsgi_reply := Reply "200 OK" page_headers None ["Forbidden page"].

(** The run of [_error_response] on the refused object GET. *)
Definition run_C : outcome (list string) * world :=
  _error_response ["denied"] request_C client_start_response world_C.

End ScenarioC.

Module ScenarioListing.
Import Scenario.







End ScenarioListing.

(** Scenario A of the spec: the container has the index [index.html] and
    the request is a GET of [/v1/acct/cont], without a trailing slash. *)
Module ScenarioA.
Import Scenario.

Definition table_A : list (string * wsgi_reply) :=
  [ container_head [("X-Container-Meta-Index", "index.html")] ].

Definition request_A : env := request "GET" "/v1/acct/cont".
Definition world_A : world := world_of self0 ∅ table_A.

(** The world once the metadata of the container is resolved. *)
Definition world_A1 : world :=
  (_get_container_info request_A client_start_response
     (with_path world_A "v1" "acct" (Some "cont") None)).2.

End ScenarioA.

(** A POST to the root of a container whose metadata is in the cache and
    has not expired. *)
Module ScenarioWrite.
Import Scenario.

Definition key : string := "/staticweb/v1/acct/cont".

Definition stale : cache_t := {[ key := (("old.html", "", ""), 2000%Z) ]}.

Definition post_reply : wsgi_reply := Reply "204 No Content" [] None [].

Definition table_W : list (string * wsgi_reply) :=
  [ container_head [("X-Container-Meta-Index", "new.html")];
    ("POST /v1/acct/cont?", post_reply) ].

Definition request_W : env := cached (request "POST" "/v1/acct/cont").
Definition world_W : world := world_of self0 stale table_W.

(** A later GET of the same container root, still before the entry would
    have expired. *)
Definition request_later : env := cached (request "GET" "/v1/acct/cont").

(** The world that the POST leaves. *)
Definition world_W1 : world :=
  (__call__ request_W client_start_response world_W).2.

End ScenarioWrite.

(** Scenario D of the spec: [dir] is no object, [dir/index.html] is no
    object either, and the container has objects under [dir/]. *)
Module ScenarioD.
Import Scenario.



Definition not_found : wsgi_reply := Reply "404 Not Found" [] None ["not found"].


End ScenarioD.

(** The object [dir] does not exist and the GET of [dir/index.html] is
    answered with 500. *)
Module ScenarioBroken.
Import Scenario.

Definition table_broken : list (string * wsgi_reply) :=
  [ container_head [("X-Container-Meta-Index", "index.html")];
    ("GET /v1/acct/cont/dir/index.html?",
     Reply "500 Internal Error" [] None ["boom"]) ].

Definition request_broken : env := request "GET" "/v1/acct/cont/dir".
Definition world_broken : world := world_of self0 ∅ table_broken.

Definition run_broken : outcome (option (list string)) * world :=
  __call__ request_broken client_start_response world_broken.

End ScenarioBroken.

(** The metadata probe of the container is refused with 401. *)
Module ScenarioDenied.
Import Scenario.

Definition denied : wsgi_reply := Reply "401 Unauthorized" [] None ["no"].

Definition table_denied : list (string * wsgi_reply) :=
  [ ("HEAD /v1/acct/cont?", denied);
    ("GET /v1/acct/cont?", Reply "200 OK" [] None ["a.txt"]) ].

Definition request_denied : env := request "GET" "/v1/acct/cont".
Definition world_denied : world := world_of (self_at None) ∅ table_denied.

End ScenarioDenied.

(** Two requests for the same container that differ in method and in
    client headers, and carry the same transaction id. *)
Module ScenarioProbe.
Import Scenario.

Definition plain : env :=
  <["HTTP_X_CF_TRANS_ID" := EStr "tx1"]> (request "HEAD" "/v1/acct/cont").

Definition conditional : env :=
  <["HTTP_IF_NONE_MATCH" := EStr "abc"]>
    (<["HTTP_COOKIE" := EStr "session=1"]>
       (<["HTTP_X_CF_TRANS_ID" := EStr "tx1"]> (request "GET" "/v1/acct/cont"))).

End ScenarioProbe.

(** ** Characters of a rendered listing *)





(** ** What a handler leaves alone *)

Section Configuration.
Context {BE : Backend}.

(** [w'] differs from [w] at most in the saved response of [self], in the
    state of the backend and in the trace. *)
Definition keeps_configuration (w w' : world) : Prop :=
  cache w' = cache w
  /\ now w' = now w
  /\ cache_timeout (self w') = cache_timeout (self w)
  /\ _index (self w') = _index (self w)
  /\ _error (self w') = _error (self w)
  /\ _listing_css (self w') = _listing_css (self w)
  /\ version (self w') = version (self w)
  /\ account (self w') = account (self w)
  /\ container (self w') = container (self w)
  /\ obj (self w') = obj (self w).

End Configuration.

(** ** More deployments for the examples *)

(** A container with an index, an error suffix and some objects. *)
Module ScenarioSite.
Import Scenario.

Definition hello : wsgi_reply := Reply "200 OK" [("Content-Length", "5")] None ["hello"].
Definition forbidden : wsgi_reply := Reply "403 Forbidden" [] None ["denied"].
Definition index_page : wsgi_reply := Reply "200 OK" [] None ["<html>docs</html>"].
Definition photos_listing : wsgi_reply := Reply "200 OK" [] None ["[photos/a]"].
Definition not_found : wsgi_reply := Reply "404 Not Found" [] None ["not found"].

Definition table_site : list (string * wsgi_reply) :=
  [ container_head [("X-Container-Meta-Index", "index.html");
                    ("X-Container-Meta-Error", "error.html")];
    ("GET /v1/acct/cont/a.txt?", hello);
    ("GET /v1/acct/cont/secret?", forbidden);
    ("GET /v1/acct/cont/docs/index.html?", index_page);
    ("GET /v1/acct/cont/index.html?", index_page);
    ("GET /v1/acct/cont?delimiter=/&format=json&prefix=photos/", photos_listing) ].

Definition world_site (o : string) : world := world_of (self_at (Some o)) ∅ table_site.

Definition get_a_txt : env := request "GET" "/v1/acct/cont/a.txt".
Definition get_secret : env := request "GET" "/v1/acct/cont/secret".
Definition get_docs : env := request "GET" "/v1/acct/cont/docs".
Definition get_docs_slash : env := request "GET" "/v1/acct/cont/docs/".
Definition get_root_slash : env := request "GET" "/v1/acct/cont/".
Definition get_healthcheck : env := request "GET" "/healthcheck".

(** The world once the object GET of [e] was answered 404 and the metadata
    of the container is resolved. *)
Definition resolved_after_miss (o : string) (e : env) : world :=
  (_get_container_info e client_start_response
     (after_saved_call (world_site o) e not_found table_site)).2.

(** The world once the metadata is resolved for the container root. *)
Definition resolved_root : world :=
  (_get_container_info get_root_slash client_start_response (world_site EmptyString)).2.

(** A resolution with a cache client on an empty cache, and the world
    it leaves. *)
Definition get_root_cached : env := cached get_root_slash.

Definition world_cached : world :=
  (_get_container_info get_root_cached client_start_response
     (world_site EmptyString)).2.

End ScenarioSite.

(** ** The account quota middleware: [account_quotas.py] *)

Module AccountQuota.

(** What [__call__] returns under [wsgify]: [self.app], so that the request
    goes on to the next application, or a response of the middleware. *)
Inductive verdict : Type :=
| PassOn
| HTTPBadRequest
| HTTPForbidden
| HTTPRequestEntityTooLarge.

(** A Python value that is [None], a [str] or an [int]. *)
Inductive value : Type :=
| VNone
| VStr (s : string)
| VInt (n : Z).

(** The truth value of such a value. *)
Definition value_truthy (v : value) : bool :=
  match v with
  | VNone => false
  | VStr s => negb (String.eqb s "")
  | VInt n => negb (n =? 0)%Z
  end.

(** The request as [__call__] reads it through swob:
    - [method] is [request.method];
    - [split_path_2_4] is [request.split_path(2, 4, rest_with_last=True)],
      [None] standing for [ValueError];
    - [new_quota] is [request.headers.get('X-Account-Meta-Quota-Bytes')];
    - [reseller_request] is [request.environ.get('reseller_request') is True];
    - [copy_from] is [request.headers.get('X-Copy-From')];
    - [content_length] is [request.content_length], an integer or [None],
      or an exception. *)
Record request : Type := Request {
  method : string;
  split_path_2_4 : option (string * string * option string * option string);
  new_quota : option string;
  reseller_request : bool;
  copy_from : option string;
  content_length : outcome (option Z)
}.

(** What [__call__] reads of a dict that [get_account_info] returns:
    [account_info['bytes']] and [account_info['meta'].get('quota-bytes')],
    [None] standing for a [meta] without the key. *)
Record account_info : Type := AccountInfo {
  bytes : value;
  quota_bytes : option value
}.

(** What [get_object_size] reads of the response to its HEAD:
    [resp.status_int] and [resp.headers.get('content-length')]. *)
Record head_response : Type := HeadResponse {
  status_int : Z;
  content_length_header : option string
}.

(** [s.isdigit()]. *)
Fixpoint all_digits (s : string) : bool :=
  match s with
  | EmptyString => true
  | String c s' => PyStr.is_digit c && all_digits s'
  end.

Definition isdigit (s : string) : bool :=
  match s with
  | EmptyString => false
  | _ => all_digits s
  end.

(** [s.lstrip('/')]. *)
Fixpoint lstrip_slash (s : string) : string :=
  match s with
  | EmptyString => EmptyString
  | String c s' => if Ascii.eqb c "/" then lstrip_slash s' else s
  end.

(** [x or 0] for a value that is [None] or an integer. *)
Definition or_0 (x : option Z) : Z := default 0%Z x.

(** [resp.is_success]. *)
Definition is_success (status : Z) : bool := (200 <=? status)%Z && (status <=? 299)%Z.

(** [request.method in ("POST", "PUT")]. *)
Definition is_write (req : request) : bool :=
  String.eqb (method req) "POST" || String.eqb (method req) "PUT".

Section Middleware.

(** The collaborators, whose code is not among the sources at hand:
    - [py_int] is Python's [int] on a string, [None] standing for
      [ValueError];
    - [head path] is the response of the next application to the
      pre-authed HEAD of [path] that [get_object_size] sends;
    - [get_account_info] is what the function of that name returns for the
      request, [None] standing for a result that is not truthy. *)
Variable py_int : string -> option Z.
Variable head : string -> head_response.
Variable get_account_info : option account_info.

(** [int(v)]. *)
Definition int (v : value) : outcome Z :=
  match v with
  | VNone => Raise TypeError
  | VStr s =>
      match py_int s with
      | Some n => Return n
      | None => Raise ValueError
      end
  | VInt n => Return n
  end.

(** [resp.headers.get('content-length')] as a value. *)
Definition header_value (h : option string) : value :=
  match h with
  | Some s => VStr s
  | None => VNone
  end.

(** [get_object_size(app, req, path)]. *)
Definition get_object_size (path : string) : outcome (option Z) :=
  let resp := head path in
  if is_success (status_int resp) then
    match int (header_value (content_length_header resp)) with
    | Return n => Return (Some n)
    | Raise ex => Raise ex
    end
  else Return None.

(** Lines 96 to 101 of [__call__]: the size that the request adds. *)
Definition counted_length (req : request) (ver acc : string) (obj : option string)
    : outcome Z :=
  let copy_from := copy_from req in
  match content_length req with
  | Raise ex => Raise ex
  | Return n =>
      let content_length := or_0 n in
      if truthy obj && truthy copy_from then
        let path := "/" +:+ ver +:+ "/" +:+ acc +:+ "/" +:+ lstrip_slash (default "" copy_from) in
        match get_object_size path with
        | Return size => Return (or_0 size)
        | Raise ex => Raise ex
        end
      else Return content_length
  end.

(** [int(account_info['meta'].get('quota-bytes', -1))]. *)
Definition quota_of (info : account_info) : outcome Z :=
  int (default (VInt (-1)) (quota_bytes info)).

(** [AccountQuotaMiddleware.__call__]. *)
Definition __call__ (req : request) : outcome verdict :=
  if negb (is_write req) then Return PassOn
  else
    match split_path_2_4 req with
    | None => Return PassOn
    | Some (ver, acc, cont, obj) =>
        let new_quota := new_quota req in
        if reseller_request req then
          if truthy new_quota && negb (isdigit (default "" new_quota))
          then Return HTTPBadRequest
          else Return PassOn
        else
          match new_quota with
          | Some _ => Return HTTPForbidden
          | None =>
              match counted_length req ver acc obj with
              | Raise ex => Raise ex
              | Return content_length =>
                  match get_account_info with
                  | None => Return PassOn
                  | Some account_info =>
                      if negb (value_truthy (bytes account_info)) then Return PassOn
                      else
                        match int (bytes account_info) with
                        | Raise ex => Raise ex
                        | Return used =>
                            let new_size := (used + content_length)%Z in
                            match quota_of account_info with
                            | Raise ex => Raise ex
                            | Return quota =>
                                if (0 <=? quota)%Z && (quota <? new_size)%Z
                                then Return HTTPRequestEntityTooLarge
                                else Return PassOn
                            end
                        end
                  end
              end
          end
    end.

End Middleware.

(** The request [req] with another [request.content_length]. *)
Definition with_content_length (req : request) (n : outcome (option Z)) : request :=
  Request (method req) (split_path_2_4 req) (new_quota req)
    (reseller_request req) (copy_from req) n.

(** The request [req] without [X-Copy-From]. *)
Definition without_copy_from (req : request) : request :=
  Request (method req) (split_path_2_4 req) (new_quota req)
    (reseller_request req) None (content_length req).

(** The request names an object and a source to copy: [obj and copy_from]. *)
Definition is_copy (req : request) : bool :=
  match split_path_2_4 req with
  | Some (_, _, _, obj) => truthy obj && truthy (copy_from req)
  | None => false
  end.

(** The path of the HEAD that [__call__] sends for a copy. *)
Definition copy_source (req : request) : string :=
  match split_path_2_4 req with
  | Some (ver, acc, _, _) =>
      "/" +:+ ver +:+ "/" +:+ acc +:+ "/" +:+ lstrip_slash (default "" (copy_from req))
  | None => ""
  end.

End AccountQuota.

Module ScenarioQuota.
Import AccountQuota.

(** An account that uses 900 bytes of a quota of 1000. *)
Definition info : account_info := AccountInfo (VStr "900") (Some (VStr "1000")).

(** The HEAD of [/v1/acct/cont/big] finds an object of 500 bytes, any other
    HEAD finds nothing. *)
Definition head (path : string) : head_response :=
  if String.eqb path "/v1/acct/cont/big" then HeadResponse 200 (Some "500")
  else HeadResponse 404 None.

(** A PUT of [n] bytes to [/v1/acct/cont/obj]. *)
Definition put (n : Z) : request :=
  Request "PUT" (Some ("v1", "acct", Some "cont", Some "obj")) None false None
    (Return (Some n)).

(** A PUT to [/v1/acct/cont/obj] that copies [/cont/big]. *)
Definition copy_big : request :=
  Request "PUT" (Some ("v1", "acct", Some "cont", Some "obj")) None false
    (Some "/cont/big") (Return (Some 0%Z)).

(** [__call__] with these collaborators. *)
Definition call (req : request) : outcome verdict :=
  AccountQuota.__call__ PyStr.int_of_str head (Some info) req.

End ScenarioQuota.

(** * Properties *)

(** ** Running the monad *)

(** Unfold the primitives of the monad and the worlds of a run, in the goal
    and in the hypotheses, and project the records that appear. *)
Ltac msimpl :=
  repeat (progress (
    unfold after_saved_call, after_forward, after_reply, after_saved_reply, with_path,
           container_path, memcache_key,
           _get_status_int, call_hook, self_app, wsgi_call, required, env_str,
           lacks_trailing_slash, load_listing,
           client_start_response, _start_response,
           memcache_get, memcache_set, memcache_delete, backend_call,
           get_self, modify_self, emit, raise in *;
    unfold mbind, M_bind, mret, M_ret in *;
    cbn [self cache now backend trace status headers exc_info body
         set_response set_config set_path
         cache_timeout _response_status _response_headers _response_exc_info
         _index _error _listing_css version account container obj negb] in *)).

(** Use an equation among the hypotheses whose left side occurs in the goal. *)
Ltac mrewrite :=
  match goal with
  | H : ?x = _ |- context [?x] => rewrite H
  end.

(** Settle a [decide] whose proposition follows from the context. *)
Ltac mdecide :=
  first [ rewrite decide_True by (done || lia)
        | rewrite decide_False by (done || lia || (intros ?; done)) ].

Ltac mgo := msimpl; repeat (first [mrewrite | mdecide]; msimpl).

Ltac mdone := rewrite <- ?app_assoc; reflexivity.

(** ** Facts on strings *)

Section StringFacts.

Lemma append_cons (x : ascii) (a b : string) : String x a +:+ b = String x (a +:+ b).
Proof. reflexivity. Qed.

Lemma append_assoc (a b c : string) : (a +:+ b) +:+ c = a +:+ (b +:+ c).
Proof.
  induction a as [|x a IH]; [reflexivity |].
  rewrite !append_cons. now rewrite IH.
Qed.

Lemma append_nil_r (a : string) : a +:+ EmptyString = a.
Proof.
  induction a as [|x a IH]; [reflexivity |].
  rewrite append_cons. now rewrite IH.
Qed.



Lemma concat_nil_cons (x : string) (l : list string) :
  String.concat EmptyString (x :: l) = x +:+ String.concat EmptyString l.
Proof. destruct l; cbn [String.concat]; [now rewrite append_nil_r | reflexivity]. Qed.

End StringFacts.

Example quote_space : PyStr.quote "a b/c" = "a%20b/c".
Proof. reflexivity. Qed.

Example escape_amp : PyStr.escape "a<b&c" false = "a&lt;b&amp;c".
Proof. reflexivity. Qed.

Example strip_both : PyStr.strip "  index.html " = "index.html".
Proof. reflexivity. Qed.

Example status_403 : status_line_int "403 Forbidden" = Some 403%Z.
Proof. reflexivity. Qed.

Example str_403 : PyStr.str_of_int 403 = "403".
Proof. reflexivity. Qed.

Example headers_get_case :
  headers_get [("X-Container-Meta-Index", "a"); ("x-container-meta-index", "b")]
    "x-container-meta-index" "" = "b".
Proof. reflexivity. Qed.

(** ** Traces *)

Section Traces.
Context {BE : Backend}.

Lemma app_envs_app (l1 l2 : list event) :
  app_envs (l1 ++ l2) = app_envs l1 ++ app_envs l2.
Proof.
  induction l1 as [|ev l1 IH]; [reflexivity |].
  destruct ev; cbn [app_envs List.app]; now rewrite IH.
Qed.

Lemma new_events_app (w w' : world) (evs : list event) :
  trace w' = trace w ++ evs -> new_events w w' = evs.
Proof. intros Ht. unfold new_events. rewrite Ht. now rewrite drop_app_length. Qed.


Lemma cache_get_delete (t : Z) (k : string) (c : cache_t) :
  cache_get t k (cache_delete k c) = None.
Proof. unfold cache_get, cache_delete. now rewrite lookup_delete_eq. Qed.

Lemma in_2_3_404 : in_2_3 (hundreds 404) = false.
Proof. reflexivity. Qed.

End Traces.

(** ** Error substitution: [_error_response] *)

Section ErrorSubstitution.
Context {BE : Backend}.

(** The path of the error page is
    [/{version}/{account}/{container}/{status}{suffix}]. *)
Lemma error_env_path (s : self_t) (code : Z) (e : env) :
  error_env (container_path s) code (fmt (_error s)) e !! "PATH_INFO"
  = Some (EStr ("/" +:+ fmt (version s) +:+ "/" +:+ fmt (account s) +:+ "/"
                  +:+ fmt (container s) +:+ "/" +:+ PyStr.str_of_int code
                  +:+ fmt (_error s))).
Proof.
  unfold error_env. rewrite lookup_insert_ne by done. rewrite lookup_insert_eq.
  unfold container_path. do 2 f_equal.
  rewrite !append_assoc. reflexivity.
Qed.

(** The error page is asked for with GET whatever the original method. *)
Lemma error_env_method (cpath : string) (code : Z) (suffix : string) (e : env) :
  method_is "GET" (error_env cpath code suffix e).
Proof. unfold method_is, error_env. apply lookup_insert_eq. Qed.

Lemma error_response_no_suffix (w : world) (response : list string) (e : env)
    (st0 : string) (h0 : header_list) :
  _response_status (self w) = Some st0 ->
  _response_headers (self w) = Some h0 ->
  truthy (_error (self w)) = false ->
  _error_response response e client_start_response w
  = (Return response,
     World _ (self w) (cache w) (now w) (backend w)
       (trace w ++ [EvStart st0 h0 (_response_exc_info (self w))])).
Proof. intros Hs Hh He. unfold _error_response. mgo. mdone. Qed.

Lemma error_response_page_found (w : world) (response : list string) (e : env)
    (st0 : string) (h0 : header_list) (code c2 : Z) (page : wsgi_reply)
    (b : backend_state) :
  _response_status (self w) = Some st0 ->
  _response_headers (self w) = Some h0 ->
  truthy (_error (self w)) = true ->
  status_line_int st0 = Some code ->
  app (error_env (container_path (self w)) code (fmt (_error (self w))) e) (backend w)
  = (page, b) ->
  status_line_int (status page) = Some c2 ->
  hundreds c2 = 2%Z ->
  _error_response response e client_start_response w
  = (Return (body page),
     World _ (set_response (status page) (headers page) (exc_info page) (self w))
       (cache w) (now w) b
       (trace w
          ++ [EvApp (error_env (container_path (self w)) code (fmt (_error (self w))) e);
              EvStart st0 (headers page) (exc_info page)])).
Proof.
  intros Hs Hh He Hc Ha Hc2 H2. unfold _error_response. mgo. mdone.
Qed.

Lemma error_response_page_missing (w : world) (response : list string) (e : env)
    (st0 : string) (h0 : header_list) (code c2 : Z) (page : wsgi_reply)
    (b : backend_state) :
  _response_status (self w) = Some st0 ->
  _response_headers (self w) = Some h0 ->
  truthy (_error (self w)) = true ->
  status_line_int st0 = Some code ->
  app (error_env (container_path (self w)) code (fmt (_error (self w))) e) (backend w)
  = (page, b) ->
  status_line_int (status page) = Some c2 ->
  hundreds c2 <> 2%Z ->
  _error_response response e client_start_response w
  = (Return response,
     World _ (set_response (status page) (headers page) (exc_info page) (self w))
       (cache w) (now w) b
       (trace w
          ++ [EvApp (error_env (container_path (self w)) code (fmt (_error (self w))) e);
              EvStart st0 h0 (_response_exc_info (self w))])).
Proof.
  intros Hs Hh He Hc Ha Hc2 H2. unfold _error_response. mgo. mdone.
Qed.


End ErrorSubstitution.

(** ** The metadata resolver: [_get_container_info] *)

Section Metadata.
Context {BE : Backend} {LIB : Library}.

Lemma head_probe_env_lookup (e : env) (k : string) :
  head_probe_env e !! k
  = if decide (k = "HTTP_X_CF_TRANS_ID") then e !! k
    else if decide (k = "swift.cache") then e !! k
    else if decide (k = "HTTP_USER_AGENT") then Some (EStr "StaticWeb")
    else if decide (k = "REQUEST_METHOD") then Some (EStr "HEAD")
    else None.
Proof.
  unfold head_probe_env. cbn [fold_left].
  destruct (e !! "swift.cache") eqn:Hc; destruct (e !! "HTTP_X_CF_TRANS_ID") eqn:Ht;
    repeat case_decide; simplify_map_eq; done.
Qed.

Lemma head_probe_env_whitelist (e1 e2 : env) :
  e1 !! "swift.cache" = e2 !! "swift.cache" ->
  e1 !! "HTTP_X_CF_TRANS_ID" = e2 !! "HTTP_X_CF_TRANS_ID" ->
  head_probe_env e1 = head_probe_env e2.
Proof.
  intros Hc Ht. apply map_eq. intros k. rewrite !head_probe_env_lookup.
  repeat case_decide; subst; done.
Qed.

Lemma get_container_info_whitelist (e1 e2 : env) (sr1 sr2 : hook) (w : world) :
  e1 !! "swift.cache" = e2 !! "swift.cache" ->
  e1 !! "HTTP_X_CF_TRANS_ID" = e2 !! "HTTP_X_CF_TRANS_ID" ->
  _get_container_info e1 sr1 w = _get_container_info e2 sr2 w.
Proof.
  intros Hc Ht. unfold _get_container_info, container_info_request, cache_from_env.
  rewrite (head_probe_env_whitelist e1 e2 Hc Ht). now rewrite Hc.
Qed.

(** A cache hit: the cached tuple is installed and the backend is not
    called. *)
Lemma get_container_info_hit (w : world) (e : env) (sr : hook) (i er css : string) :
  cache_from_env e = true ->
  cache_get (now w) (memcache_key (self w)) (cache w) = Some (i, er, css) ->
  _get_container_info e sr w
  = (Return tt,
     World _ (set_config (Some i) (Some er) (Some css) (self w)) (cache w) (now w)
       (backend w) (trace w ++ [EvCacheGet (memcache_key (self w))])).
Proof. intros Hc Hg. unfold _get_container_info. mgo. mdone. Qed.

(** No cache hit and a probe that is not answered 2xx: the configuration
    stays empty and nothing is raised. *)
Lemma get_container_info_failed (w : world) (e : env) (sr : hook)
    (r : wsgi_reply) (b : backend_state) (c : Z) :
  cache_from_env e = false
  \/ cache_get (now w) (memcache_key (self w)) (cache w) = None ->
  app (container_info_request (container_path (self w)) e) (backend w) = (r, b) ->
  status_line_int (status r) = Some c ->
  hundreds c <> 2%Z ->
  _get_container_info e sr w
  = (Return tt,
     World _ (set_config None None None (self w)) (cache w) (now w) b
       (trace w
          ++ (if cache_from_env e then [EvCacheGet (memcache_key (self w))] else [])
          ++ [EvApp (container_info_request (container_path (self w)) e)])).
Proof.
  intros Hmiss Ha Hc H2. unfold _get_container_info.
  destruct (cache_from_env e) eqn:Hce.
  - destruct Hmiss as [|Hg]; [done |]. mgo. mdone.
  - mgo. mdone.
Qed.

(** No cache hit and a probe answered 2xx: the three headers, stripped,
    are installed, and cached when there is a cache. *)
Lemma get_container_info_fetched (w : world) (e : env) (sr : hook)
    (r : wsgi_reply) (b : backend_state) (c : Z) :
  cache_from_env e = false
  \/ cache_get (now w) (memcache_key (self w)) (cache w) = None ->
  app (container_info_request (container_path (self w)) e) (backend w) = (r, b) ->
  status_line_int (status r) = Some c ->
  hundreds c = 2%Z ->
  let i := PyStr.strip (headers_get (headers r) "x-container-meta-index" "") in
  let css := PyStr.strip (headers_get (headers r) "x-container-meta-listing-css" "") in
  let er := PyStr.strip (headers_get (headers r) "x-container-meta-error" "") in
  _get_container_info e sr w
  = (Return tt,
     World _ (set_config (Some i) (Some er) (Some css) (self w))
       (if cache_from_env e
        then cache_set (now w) (memcache_key (self w)) (i, er, css)
               (cache_timeout (self w)) (cache w)
        else cache w)
       (now w) b
       (trace w
          ++ (if cache_from_env e then [EvCacheGet (memcache_key (self w))] else [])
          ++ [EvApp (container_info_request (container_path (self w)) e)]
          ++ (if cache_from_env e
              then [EvCacheSet (memcache_key (self w)) (i, er, css)
                      (cache_timeout (self w))]
              else []))).
Proof.
  intros Hmiss Ha Hc H2 i css er. unfold _get_container_info.
  destruct (cache_from_env e) eqn:Hce.
  - destruct Hmiss as [|Hg]; [done |]. mgo. mdone.
  - mgo. rewrite app_nil_r. mdone.
Qed.

(** Whatever happens, metadata resolution calls the backend at most once,
    and then with the probe. *)
Lemma get_container_info_trace (w : world) (e : env) (sr : hook) :
  exists evs : list event,
    trace (_get_container_info e sr w).2 = trace w ++ evs
    /\ (app_envs evs = []
        \/ app_envs evs = [container_info_request (container_path (self w)) e]).
Proof.
  unfold _get_container_info. msimpl.
  destruct (cache_from_env e); msimpl.
  - destruct (cache_get _ _ _) as [[[i er] css]|]; msimpl.
    + eexists. split; [reflexivity |]. now left.
    + destruct (app _ _) as [r b]. msimpl.
      destruct (status_line_int (status r)) as [c|]; msimpl.
      * case_decide; msimpl; cbn [snd trace];
          rewrite <- ?app_assoc; eexists; (split; [reflexivity |]); now right.
      * cbn [snd trace]. rewrite <- ?app_assoc. eexists. split; [reflexivity |]. now right.
  - destruct (app _ _) as [r b]. msimpl.
    destruct (status_line_int (status r)) as [c|]; msimpl.
    + case_decide; msimpl; cbn [snd trace];
        rewrite <- ?app_assoc; eexists; (split; [reflexivity |]); now right.
    + cbn [snd trace]. rewrite <- ?app_assoc. eexists. split; [reflexivity |]. now right.
Qed.

(** Without a cache hit the probe is sent, whatever the backend answers. *)
Lemma get_container_info_miss_probes (w : world) (e : env) (sr : hook) :
  cache_from_env e = false
  \/ cache_get (now w) (memcache_key (self w)) (cache w) = None ->
  app_envs (new_events w (_get_container_info e sr w).2)
  = [container_info_request (container_path (self w)) e].
Proof.
  intros Hmiss. unfold _get_container_info. msimpl.
  destruct (cache_from_env e); msimpl.
  - destruct Hmiss as [|Hg]; [done |]. rewrite Hg. msimpl.
    destruct (app _ _) as [r b]. msimpl.
    destruct (status_line_int (status r)) as [c|]; msimpl.
    + case_decide; msimpl; cbn [snd]; erewrite new_events_app
        by (cbn [trace]; rewrite <- ?app_assoc; reflexivity); reflexivity.
    + cbn [snd]. erewrite new_events_app
        by (cbn [trace]; rewrite <- ?app_assoc; reflexivity). reflexivity.
  - destruct (app _ _) as [r b]. msimpl.
    destruct (status_line_int (status r)) as [c|]; msimpl.
    + case_decide; msimpl; cbn [snd]; erewrite new_events_app
        by (cbn [trace]; rewrite <- ?app_assoc; reflexivity); reflexivity.
    + cbn [snd]. erewrite new_events_app
        by (cbn [trace]; rewrite <- ?app_assoc; reflexivity). reflexivity.
Qed.

End Metadata.

(** ** The listing state: [_listing] *)

Section ListingState.
Context {BE : Backend} {LIB : Library}.





End ListingState.

(** ** The resolution engine: [_handle_container], [_handle_object], [__call__] *)

Section Engine.
Context {BE : Backend} {LIB : Library}.

(** Container root, no index configured: the request is forwarded. *)
Lemma handle_container_forward (w w1 : world) (e : env) (r : wsgi_reply)
    (b : backend_state) :
  _get_container_info e client_start_response w = (Return tt, w1) ->
  truthy (_index (self w1)) = false ->
  app e (backend w1) = (r, b) ->
  _handle_container e client_start_response w
  = (Return (body r), after_forward w1 e r b).
Proof. intros Hi Ht Ha. unfold _handle_container. mgo. mdone. Qed.

(** Container root, index configured, no trailing slash: redirect. *)
Lemma handle_container_redirect (w w1 : world) (e : env) (path_info : string)
    (ch : ascii) :
  _get_container_info e client_start_response w = (Return tt, w1) ->
  truthy (_index (self w1)) = true ->
  e !! "PATH_INFO" = Some (EStr path_info) ->
  PyStr.last_char path_info = Some ch ->
  ch <> "/"%char ->
  _handle_container e client_start_response w
  = (Return (body (HTTPMovedPermanently (path_info +:+ "/") e)),
     after_reply w1 (HTTPMovedPermanently (path_info +:+ "/") e)).
Proof.
  intros Hi Ht Hp Hl Hc. apply Ascii.eqb_neq in Hc.
  unfold _handle_container. mgo. mdone.
Qed.

(** Object missing, no index configured: the request is forwarded. *)
Lemma handle_object_no_index (w w2 : world) (e : env) (r1 r : wsgi_reply)
    (b1 b : backend_state) :
  app e (backend w) = (r1, b1) ->
  status_line_int (status r1) = Some 404%Z ->
  _get_container_info e client_start_response (after_saved_call w e r1 b1)
  = (Return tt, w2) ->
  truthy (_index (self w2)) = false ->
  app e (backend w2) = (r, b) ->
  _handle_object e client_start_response w
  = (Return (Some (body r)), after_forward w2 e r b).
Proof.
  intros Ha1 Hs1 Hi Ht Ha. unfold _handle_object. mgo.
  rewrite in_2_3_404. mgo. mdone.
Qed.

(** Object missing, index configured, and the index sub-request fails with
    a status other than 404: the function ends without a [return] and
    without a call to the client's [start_response]. *)
Lemma handle_object_index_failure (w w2 : world) (e : env) (path_info : string)
    (ch : ascii) (r1 r2 : wsgi_reply) (b1 b2 : backend_state) (c2 : Z) :
  app e (backend w) = (r1, b1) ->
  status_line_int (status r1) = Some 404%Z ->
  _get_container_info e client_start_response (after_saved_call w e r1 b1)
  = (Return tt, w2) ->
  truthy (_index (self w2)) = true ->
  e !! "PATH_INFO" = Some (EStr path_info) ->
  PyStr.last_char path_info = Some ch ->
  app (<["PATH_INFO" :=
           EStr ((if negb (Ascii.eqb ch "/") then path_info +:+ "/" else path_info)
                   +:+ fmt (_index (self w2)))]> e) (backend w2) = (r2, b2) ->
  status_line_int (status r2) = Some c2 ->
  in_2_3 (hundreds c2) = false ->
  c2 <> 404%Z ->
  _handle_object e client_start_response w
  = (Return None,
     after_saved_call w2
       (<["PATH_INFO" :=
           EStr ((if negb (Ascii.eqb ch "/") then path_info +:+ "/" else path_info)
                   +:+ fmt (_index (self w2)))]> e) r2 b2).
Proof.
  intros Ha1 Hs1 Hi Ht Hp Hl Ha2 Hs2 H23 H404.
  unfold _handle_object. mgo. rewrite in_2_3_404. mgo. mdone.
Qed.



(** [__call__] on a PUT or POST to a container root, with a cache. *)
Lemma call_container_write (w : world) (e : env) (path_info method v a c : string)
    (o : option string) (r : wsgi_reply) (b : backend_state) :
  e !! "PATH_INFO" = Some (EStr path_info) ->
  split_path path_info = Some (v, a, Some c, o) ->
  truthy (Some c) = true ->
  truthy o = false ->
  e !! "REQUEST_METHOD" = Some (EStr method) ->
  is_write method = true ->
  cache_from_env e = true ->
  app e (backend w) = (r, b) ->
  __call__ e client_start_response w
  = (Return (Some (body r)),
     World _ (set_path (Some v) (Some a) (Some c) o (self w))
       (cache_delete ("/staticweb/" +:+ v +:+ "/" +:+ a +:+ "/" +:+ c) (cache w))
       (now w) b
       (trace w ++ [EvCacheDelete ("/staticweb/" +:+ v +:+ "/" +:+ a +:+ "/" +:+ c);
                    EvApp e; EvStart (status r) (headers r) (exc_info r)])).
Proof.
  intros Hp Hsp Hc Ho Hm Hw Hce Ha. unfold __call__. mgo.
  cbn [andb]. mgo. cbn [fmt default]. mgo. mdone.
Qed.

(** [__call__] on a HEAD or GET of a container root, when static web
    handling applies: the request goes to [_handle_container]. *)
Lemma call_container_read (w : world) (e : env) (path_info method v a c : string)
    (o : option string) :
  e !! "PATH_INFO" = Some (EStr path_info) ->
  split_path path_info = Some (v, a, Some c, o) ->
  truthy (Some c) = true ->
  truthy o = false ->
  e !! "REQUEST_METHOD" = Some (EStr method) ->
  is_read method = true ->
  env_truthy e "REMOTE_USER" && negb (web_mode e) = false ->
  __call__ e client_start_response w
  = match _handle_container e client_start_response (with_path w v a (Some c) o) with
    | (Return r, w') => (Return (Some r), w')
    | (Raise ex, w') => (Raise ex, w')
    end.
Proof.
  intros Hp Hsp Hc Ho Hm Hr Hauth. unfold __call__, with_path. mgo.
  assert (is_write method = false) as Hw.
  { unfold is_read, is_write in *.
    destruct (String.eqb_spec method "HEAD") as [->|]; [reflexivity |].
    destruct (String.eqb_spec method "GET") as [->|]; [reflexivity | discriminate]. }
  rewrite Hw, andb_false_r. cbn [negb orb]. mgo. reflexivity.
Qed.

End Engine.

(** * The claims *)

(** ** C1: error substitution *)

Section ErrorSubstitutionClaim.
Context {BE : Backend}.

(** C1 (amended).  Error substitution, entered with the failure saved in
    [self] (status line [st0], headers [h0]).  With no error suffix
    configured the saved failure is sent to the client untouched.  With a
    suffix, the page [/{version}/{account}/{container}/{status}{suffix}]
    is asked for with GET; when that answers 2xx the client gets the
    status line of the original failure, the headers of the error page and
    the body of the error page; when it answers anything else the client
    gets the original failure untouched. *)
Theorem error_substitution_status_kept_page_headers_sent
    (w : world) (response : list string) (e : env) (st0 : string) (h0 : header_list) :
  _response_status (self w) = Some st0 ->
  _response_headers (self w) = Some h0 ->
  (truthy (_error (self w)) = false ->
     _error_response response e client_start_response w
     = (Return response,
        World _ (self w) (cache w) (now w) (backend w)
          (trace w ++ [EvStart st0 h0 (_response_exc_info (self w))])))
  /\
  (truthy (_error (self w)) = true ->
   forall (code c2 : Z) (page : wsgi_reply) (b : backend_state),
     let page_env :=
       error_env (container_path (self w)) code (fmt (_error (self w))) e in
     status_line_int st0 = Some code ->
     app page_env (backend w) = (page, b) ->
     status_line_int (status page) = Some c2 ->
     page_env !! "PATH_INFO"
     = Some (EStr ("/" +:+ fmt (version (self w)) +:+ "/" +:+ fmt (account (self w))
                     +:+ "/" +:+ fmt (container (self w)) +:+ "/"
                     +:+ PyStr.str_of_int code +:+ fmt (_error (self w))))
     /\ method_is "GET" page_env
     /\ (hundreds c2 = 2%Z ->
           _error_response response e client_start_response w
           = (Return (body page),
              World _ (set_response (status page) (headers page) (exc_info page) (self w))
                (cache w) (now w) b
                (trace w ++ [EvApp page_env;
                             EvStart st0 (headers page) (exc_info page)])))
     /\ (hundreds c2 <> 2%Z ->
           _error_response response e client_start_response w
           = (Return response,
              World _ (set_response (status page) (headers page) (exc_info page) (self w))
                (cache w) (now w) b
                (trace w ++ [EvApp page_env;
                             EvStart st0 h0 (_response_exc_info (self w))])))).
Proof.
  intros Hs Hh. split.
  - intros He. now apply error_response_no_suffix.
  - intros He code c2 page b page_env Hc Ha Hc2. subst page_env.
    split; [apply error_env_path |].
    split; [apply error_env_method |].
    split; intros H2.
    + eapply error_response_page_found; eauto.
    + eapply error_response_page_missing; eauto.
Qed.

End ErrorSubstitutionClaim.

(** Scenario C of the spec, run through the theorem: the object GET was
    refused with 403 and [403error.html] answers 200, so the client gets
    status 403 with the body of the page, and the headers of the page. *)
Lemma error_substitution_scenario_C :
  ScenarioC.run_C
  = (Return ["Forbidden page"],
     World Scenario.table_backend
       (set_response "200 OK" Scenario.page_headers None Scenario.self_C)
       ∅ 1000%Z Scenario.table_C
       [EvApp (error_env "/v1/acct/cont" 403 "error.html" ScenarioC.request_C);
        EvStart "403 Forbidden" Scenario.page_headers None]).
Proof.
  pose proof (error_substitution_status_kept_page_headers_sent
                (BE := Scenario.table_backend)
                ScenarioC.world_C ["denied"] ScenarioC.request_C
                "403 Forbidden" Scenario.forbidden_headers eq_refl eq_refl) as [_ Hsuffix].
  specialize (Hsuffix eq_refl 403%Z 200%Z ScenarioC.page_C).
  specialize (Hsuffix Scenario.table_C).
  specialize (Hsuffix eq_refl).
  destruct (Hsuffix ltac:(vm_compute; reflexivity) eq_refl) as (_ & _ & Hfound & _).
  exact (Hfound eq_refl).
Defined.

(** C1 as stated fails in scenario C: the response does not carry the
    headers of the original 403, it carries those of the error page. *)
Lemma error_substitution_original_headers_counterexample :
  ~ (ScenarioC.run_C.1 = Return ["Forbidden page"]
     /\ client_starts (trace ScenarioC.run_C.2)
        = [("403 Forbidden", Scenario.forbidden_headers, None)]).
Proof.
  intros [_ Hstarts]. vm_compute in Hstarts. discriminate Hstarts.
Qed.

(** ** C2: the index sub-request fails on the object path *)

(** C2 (code defect).  The object [dir] does not exist, the container has an
    index configured and the GET of [dir/index.html] is answered with 500:
    [__call__] returns [None] and the client's [start_response] is never
    called, so there is no response at all, and no error substitution. *)
Theorem object_index_failure_gives_no_response :
  ScenarioBroken.run_broken.1 = Return None
  /\ client_starts (trace ScenarioBroken.run_broken.2) = []
  /\ length (app_envs (trace ScenarioBroken.run_broken.2)) = 3%nat.
Proof. repeat split; vm_compute; reflexivity. Qed.

(** ** C3 and C4: the listing renderer *)

Section Listing.
Context {LIB : Library}.

Lemma subdir_step_row (prefix : option string) (body : string) (it : item) :
  subdir_step prefix body it
  = body +:+ (if is_subdir it then entry_row prefix it else EmptyString).
Proof. destruct it; cbn [subdir_step entry_row is_subdir]; now rewrite ?append_nil_r. Qed.

Lemma object_step_row (prefix : option string) (body : string) (it : item) :
  object_step prefix body it
  = body +:+ (if is_object it then entry_row prefix it else EmptyString).
Proof. destruct it; cbn [object_step entry_row is_object]; now rewrite ?append_nil_r. Qed.

(** The first loop appends the rows of the subdir entries, in order. *)
Lemma subdir_loop (prefix : option string) (listing : list item) (body : string) :
  fold_left (subdir_step prefix) listing body
  = body +:+ String.concat EmptyString
               (map (entry_row prefix) (List.filter is_subdir listing)).
Proof.
  revert body. induction listing as [|it listing IH]; intros body.
  - cbn. now rewrite append_nil_r.
  - cbn [fold_left List.filter]. rewrite IH, subdir_step_row.
    destruct (is_subdir it).
    + cbn [map]. now rewrite concat_nil_cons, append_assoc.
    + now rewrite append_nil_r.
Qed.

(** The second loop appends the rows of the object entries, in order. *)
Lemma object_loop (prefix : option string) (listing : list item) (body : string) :
  fold_left (object_step prefix) listing body
  = body +:+ String.concat EmptyString
               (map (entry_row prefix) (List.filter is_object listing)).
Proof.
  revert body. induction listing as [|it listing IH]; intros body.
  - cbn. now rewrite append_nil_r.
  - cbn [fold_left List.filter]. rewrite IH, object_step_row.
    destruct (is_object it).
    + cbn [map]. now rewrite concat_nil_cons, append_assoc.
    + now rewrite append_nil_r.
Qed.


(** When the backend lists no object before a subdir, the rendered rows
    are in the order of the backend. *)
Lemma listing_grouped_keeps_order
    (path_info : string) (s : self_t) (prefix : option string) (dirs objs : list item) :
  forallb is_subdir dirs = true ->
  forallb is_object objs = true ->
  listing_body path_info s prefix (dirs ++ objs)
  = listing_in_backend_order path_info s prefix (dirs ++ objs).
Proof.
  intros Hd Ho. unfold listing_body, listing_in_backend_order. cbv zeta.
  rewrite object_loop, subdir_loop, !append_assoc.
  assert (forall l, forallb is_subdir l = true ->
                    List.filter is_subdir l = l /\ List.filter is_object l = []) as Hs.
  { induction l as [|[sd|n b ct lm] l IH]; cbn; intros Hl; [done | | done].
    destruct (IH Hl) as [-> ->]. done. }
  assert (forall l, forallb is_object l = true ->
                    List.filter is_object l = l /\ List.filter is_subdir l = []) as Hob.
  { induction l as [|[sd|n b ct lm] l IH]; cbn; intros Hl; [done | done |].
    destruct (IH Hl) as [-> ->]. done. }
  rewrite !List.filter_app.
  destruct (Hs dirs Hd) as [-> ->]. destruct (Hob objs Ho) as [-> ->].
  rewrite app_nil_r. cbn [List.app]. rewrite map_app.
  assert (forall l1 l2, String.concat EmptyString (l1 ++ l2)
                        = String.concat EmptyString l1 +:+ String.concat EmptyString l2)
    as Hcat.
  { induction l1 as [|x l1 IH]; intros l2; [reflexivity |].
    cbn [List.app]. now rewrite !concat_nil_cons, IH, append_assoc. }
  now rewrite Hcat, !append_assoc.
Qed.




End Listing.




(** ** C5: the container root *)

Section ContainerRoot.
Context {BE : Backend} {LIB : Library}.

(** C5.  A HEAD or GET of a container root for which static web handling
    applies (no authenticated user, or web mode asked for).  When the
    resolved metadata has an index and the path has no trailing slash, the
    response is a 301 to the path with a slash appended, and the only
    backend call that can have happened is the metadata probe: no index
    and no listing sub-request.  When no index is configured the original
    request goes to the backend as it is and the reply of the backend goes
    to the client as it is. *)
Theorem container_root_redirects_or_forwards
    (w w1 : world) (e : env) (path_info method v a c : string) (o : option string) :
  e !! "PATH_INFO" = Some (EStr path_info) ->
  split_path path_info = Some (v, a, Some c, o) ->
  truthy (Some c) = true ->
  truthy o = false ->
  e !! "REQUEST_METHOD" = Some (EStr method) ->
  is_read method = true ->
  env_truthy e "REMOTE_USER" && negb (web_mode e) = false ->
  _get_container_info e client_start_response (with_path w v a (Some c) o)
  = (Return tt, w1) ->
  (truthy (_index (self w1)) = true ->
   forall ch : ascii,
     PyStr.last_char path_info = Some ch ->
     ch <> "/"%char ->
     let moved := HTTPMovedPermanently (path_info +:+ "/") e in
     __call__ e client_start_response w
     = (Return (Some (body moved)), after_reply w1 moved)
     /\ status moved = "301 Moved Permanently"
     /\ Forall (eq (container_info_request ("/" +:+ v +:+ "/" +:+ a +:+ "/" +:+ c) e))
          (app_envs (new_events w (after_reply w1 moved))))
  /\
  (truthy (_index (self w1)) = false ->
   forall (r : wsgi_reply) (b : backend_state),
     app e (backend w1) = (r, b) ->
     __call__ e client_start_response w
     = (Return (Some (body r)), after_forward w1 e r b)).
Proof.
  intros Hp Hsp Hc Ho Hm Hr Hauth Hi. split.
  - intros Ht ch Hl Hch moved.
    rewrite (call_container_read w e path_info method v a c o) by assumption.
    rewrite (handle_container_redirect _ w1 e path_info ch) by assumption.
    split; [reflexivity |]. split; [reflexivity |].
    destruct (get_container_info_trace (with_path w v a (Some c) o) e
                client_start_response) as (evs & Htr & Hev).
    rewrite Hi in Htr. cbn [snd] in Htr.
    rewrite (new_events_app w _ (evs ++ [EvStart (status moved) (headers moved)
                                           (exc_info moved)])).
    2:{ unfold after_reply. cbn [trace]. rewrite Htr. unfold with_path. cbn [trace].
        now rewrite <- app_assoc. }
    rewrite app_envs_app. cbn [app_envs]. rewrite app_nil_r.
    destruct Hev as [-> | ->]; [constructor |].
    constructor; [reflexivity | constructor].
  - intros Ht r b Ha.
    rewrite (call_container_read w e path_info method v a c o) by assumption.
    now rewrite (handle_container_forward _ w1 e r b) by assumption.
Qed.

End ContainerRoot.

(** Scenario A of the spec, run through the theorem: the GET of
    [/v1/acct/cont] is answered with a 301 to [/v1/acct/cont/]. *)
Lemma container_root_scenario_A :
  __call__ (LIB := Scenario.library) ScenarioA.request_A client_start_response
    ScenarioA.world_A
  = (Return (Some (body (HTTPMovedPermanently (LIB := Scenario.library)
                           "/v1/acct/cont/" ScenarioA.request_A))),
     after_reply ScenarioA.world_A1
       (HTTPMovedPermanently (LIB := Scenario.library)
          "/v1/acct/cont/" ScenarioA.request_A)).
Proof.
  pose proof (container_root_redirects_or_forwards
                (BE := Scenario.table_backend) (LIB := Scenario.library)
                ScenarioA.world_A ScenarioA.world_A1 ScenarioA.request_A
                "/v1/acct/cont" "GET" "v1" "acct" "cont" None
                eq_refl eq_refl eq_refl eq_refl eq_refl eq_refl eq_refl
                ltac:(vm_compute; reflexivity)) as [Hredirect _].
  specialize (Hredirect ltac:(vm_compute; reflexivity) "t"%char eq_refl).
  destruct (Hredirect ltac:(discriminate)) as [Hrun _].
  exact Hrun.
Defined.

(** ** C6: a write to a container root invalidates the cached metadata *)

Section Invalidation.
Context {BE : Backend} {LIB : Library}.

(** A cache entry that has not expired is served without a probe: this is
    what a resolution does when no write came in between. *)
Lemma cached_metadata_served_without_probe (w : world) (e : env) (sr : hook)
    (i er css : string) :
  cache_from_env e = true ->
  cache_get (now w) (memcache_key (self w)) (cache w) = Some (i, er, css) ->
  app_envs (new_events w (_get_container_info e sr w).2) = [].
Proof.
  intros Hc Hg. rewrite (get_container_info_hit w e sr i er css Hc Hg).
  cbn [snd]. now erewrite new_events_app by reflexivity.
Qed.

(** C6.  A PUT or POST to a container root (container present, object
    absent) with a cache in the environment: the cache entry of the
    container is deleted, then the write is forwarded to the backend and
    its reply to the client.  In the world the write leaves, and in any
    later world with the same cache, at any time, the entry is absent and
    a metadata resolution for that container sends the probe to the
    backend. *)
Theorem container_write_invalidates_metadata
    (w : world) (e : env) (path_info method v a c : string) (o : option string)
    (r : wsgi_reply) (b : backend_state) :
  e !! "PATH_INFO" = Some (EStr path_info) ->
  split_path path_info = Some (v, a, Some c, o) ->
  truthy (Some c) = true ->
  truthy o = false ->
  e !! "REQUEST_METHOD" = Some (EStr method) ->
  method = "PUT" \/ method = "POST" ->
  cache_from_env e = true ->
  app e (backend w) = (r, b) ->
  let key := "/staticweb/" +:+ v +:+ "/" +:+ a +:+ "/" +:+ c in
  exists w1 : world,
    __call__ e client_start_response w = (Return (Some (body r)), w1)
    /\ new_events w w1
       = [EvCacheDelete key; EvApp e; EvStart (status r) (headers r) (exc_info r)]
    /\ cache w1 = cache_delete key (cache w)
    /\ (forall t : Z, cache_get t key (cache w1) = None)
    /\ (forall (w2 : world) (e2 : env) (sr : hook),
          cache w2 = cache w1 ->
          memcache_key (self w2) = key ->
          app_envs (new_events w2 (_get_container_info e2 sr w2).2)
          = [container_info_request (container_path (self w2)) e2]).
Proof.
  intros Hp Hsp Hc Ho Hm Hmeth Hce Ha key.
  assert (is_write method = true) as Hw by (destruct Hmeth as [-> | ->]; reflexivity).
  eexists. split; [eapply call_container_write; eassumption |].
  split; [now apply new_events_app |].
  split; [reflexivity |].
  split; [intros t; apply cache_get_delete |].
  intros w2 e2 sr Hc2 Hk. apply get_container_info_miss_probes. right.
  rewrite Hk, Hc2. apply cache_get_delete.
Qed.

End Invalidation.

(** A POST to [/v1/acct/cont] while the cache holds an entry that expires
    at 2000 and the clock reads 1000: the next resolution for the container
    sends the probe. *)
Lemma container_write_scenario :
  __call__ (LIB := Scenario.library) ScenarioWrite.request_W client_start_response
    ScenarioWrite.world_W
  = (Return (Some (body ScenarioWrite.post_reply)), ScenarioWrite.world_W1)
  /\ cache ScenarioWrite.world_W1 !! ScenarioWrite.key = None
  /\ app_envs
       (new_events ScenarioWrite.world_W1
          (_get_container_info (LIB := Scenario.library) ScenarioWrite.request_later
             client_start_response ScenarioWrite.world_W1).2)
     = [container_info_request (LIB := Scenario.library) "/v1/acct/cont"
          ScenarioWrite.request_later].
Proof.
  destruct (container_write_invalidates_metadata
              (BE := Scenario.table_backend) (LIB := Scenario.library)
              ScenarioWrite.world_W ScenarioWrite.request_W
              "/v1/acct/cont" "POST" "v1" "acct" "cont" None
              ScenarioWrite.post_reply ScenarioWrite.table_W
              ltac:(vm_compute; reflexivity) eq_refl eq_refl eq_refl
              ltac:(vm_compute; reflexivity) (or_intror eq_refl)
              ltac:(vm_compute; reflexivity) ltac:(vm_compute; reflexivity))
    as (w1 & Hrun & _ & Hcache & _ & Hnext).
  assert (w1 = ScenarioWrite.world_W1) as ->.
  { apply (f_equal snd) in Hrun. symmetry. exact Hrun. }
  split; [exact Hrun |]. split.
  - rewrite Hcache. apply lookup_delete_eq.
  - apply (Hnext ScenarioWrite.world_W1 ScenarioWrite.request_later
             client_start_response eq_refl).
    vm_compute. reflexivity.
Defined.

(** ** C7: the pseudo-directory probe *)

Section PseudoDirectory.
Context {BE : Backend} {LIB : Library}.


End PseudoDirectory.


(** ** C8: a failed metadata probe disables static web handling *)

Section MetadataFailure.
Context {BE : Backend} {LIB : Library}.

(** C8.  Metadata resolution without a cache hit whose HEAD probe is
    answered with a status that is not 2xx: the resolution returns
    normally with index, error suffix and listing style sheet all absent,
    and caches nothing.  On the container path the original request then
    goes to the backend as it is and the reply of the backend goes to the
    client as it is; on the object path (entered after the object GET was
    answered 404) likewise. *)
Theorem metadata_failure_disables_static_web
    (w : world) (e : env) (r : wsgi_reply) (b : backend_state) (c : Z) :
  cache_from_env e = false
  \/ cache_get (now w) (memcache_key (self w)) (cache w) = None ->
  app (container_info_request (container_path (self w)) e) (backend w) = (r, b) ->
  status_line_int (status r) = Some c ->
  hundreds c <> 2%Z ->
  let w1 :=
    World _ (set_config None None None (self w)) (cache w) (now w) b
      (trace w
         ++ (if cache_from_env e then [EvCacheGet (memcache_key (self w))] else [])
         ++ [EvApp (container_info_request (container_path (self w)) e)]) in
  _get_container_info e client_start_response w = (Return tt, w1)
  /\ (_index (self w1) = None /\ _error (self w1) = None
      /\ _listing_css (self w1) = None)
  /\ cache w1 = cache w
  /\ (forall (r0 : wsgi_reply) (b0 : backend_state),
        app e b = (r0, b0) ->
        _handle_container e client_start_response w
        = (Return (body r0), after_forward w1 e r0 b0))
  /\ (forall (w0 : world) (r404 r0 : wsgi_reply) (b0 : backend_state),
        app e (backend w0) = (r404, backend w) ->
        status_line_int (status r404) = Some 404%Z ->
        w = after_saved_call w0 e r404 (backend w) ->
        app e b = (r0, b0) ->
        _handle_object e client_start_response w0
        = (Return (Some (body r0)), after_forward w1 e r0 b0)).
Proof.
  intros Hmiss Ha Hc H2 w1.
  assert (_get_container_info e client_start_response w = (Return tt, w1)) as Hrun
    by (now apply get_container_info_failed with (r := r) (c := c)).
  split; [exact Hrun |]. split; [now repeat split |]. split; [reflexivity |]. split.
  - intros r0 b0 Ha0. now apply handle_container_forward.
  - intros w0 r404 r0 b0 Ha404 Hs404 Hw Ha0.
    eapply handle_object_no_index; [exact Ha404 | exact Hs404 | | reflexivity | exact Ha0].
    rewrite <- Hw. exact Hrun.
Qed.

End MetadataFailure.

(** The probe of [/v1/acct/cont] is refused with 401: the GET of the
    container root goes to the backend and its reply to the client. *)
Lemma metadata_failure_scenario :
  (_handle_container (LIB := Scenario.library) ScenarioDenied.request_denied
     client_start_response ScenarioDenied.world_denied).1
  = Return ["a.txt"].
Proof.
  pose proof (metadata_failure_disables_static_web
                (BE := Scenario.table_backend) (LIB := Scenario.library)
                ScenarioDenied.world_denied ScenarioDenied.request_denied
                ScenarioDenied.denied) as H.
  specialize (H ScenarioDenied.table_denied 401%Z (or_introl eq_refl)
                ltac:(vm_compute; reflexivity) eq_refl ltac:(discriminate)).
  cbv zeta in H. destruct H as (_ & _ & _ & Hcontainer & _).
  specialize (Hcontainer (Reply "200 OK" [] None ["a.txt"])).
  specialize (Hcontainer ScenarioDenied.table_denied ltac:(vm_compute; reflexivity)).
  rewrite Hcontainer. reflexivity.
Defined.

(** ** C9: the metadata probe carries nothing of the client *)

Section ProbeIsolation.
Context {BE : Backend} {LIB : Library}.

(** C9.  Two original requests that agree on the cache handle and on the
    trace id, and differ in anything else (method, conditional headers,
    other headers), run the metadata resolution in the same way: the
    environment given to [Request.blank] for the probe is the same, so is
    the probe, and so is the whole resolution.  That environment holds
    the method HEAD, the user agent StaticWeb, and the cache handle and
    the trace id when the original environment has them; it holds no
    other key. *)
Theorem metadata_probe_carries_whitelist_only (e1 e2 : env) :
  e1 !! "swift.cache" = e2 !! "swift.cache" ->
  e1 !! "HTTP_X_CF_TRANS_ID" = e2 !! "HTTP_X_CF_TRANS_ID" ->
  head_probe_env e1 = head_probe_env e2
  /\ (forall cpath : string,
        container_info_request cpath e1 = container_info_request cpath e2)
  /\ (forall (w : world) (sr : hook),
        _get_container_info e1 sr w = _get_container_info e2 sr w)
  /\ (forall k : string,
        head_probe_env e1 !! k
        = if decide (k = "HTTP_X_CF_TRANS_ID") then e1 !! k
          else if decide (k = "swift.cache") then e1 !! k
          else if decide (k = "HTTP_USER_AGENT") then Some (EStr "StaticWeb")
          else if decide (k = "REQUEST_METHOD") then Some (EStr "HEAD")
          else None).
Proof.
  intros Hc Ht.
  split; [now apply head_probe_env_whitelist |].
  split; [intros cpath; unfold container_info_request;
          now rewrite (head_probe_env_whitelist e1 e2) |].
  split; [intros w sr; now apply get_container_info_whitelist |].
  apply head_probe_env_lookup.
Qed.

End ProbeIsolation.

(** A GET with [If-None-Match] and a cookie, and a plain HEAD, of the same
    container with the same trace id: the probes are the same. *)
Lemma metadata_probe_scenario :
  container_info_request (LIB := Scenario.library) "/v1/acct/cont" ScenarioProbe.conditional
  = container_info_request (LIB := Scenario.library) "/v1/acct/cont" ScenarioProbe.plain
  /\ head_probe_env ScenarioProbe.conditional !! "HTTP_IF_NONE_MATCH" = None
  /\ head_probe_env ScenarioProbe.conditional !! "HTTP_COOKIE" = None.
Proof.
  destruct (metadata_probe_carries_whitelist_only
              (BE := Scenario.table_backend) (LIB := Scenario.library)
              ScenarioProbe.conditional ScenarioProbe.plain
              ltac:(vm_compute; reflexivity) ltac:(vm_compute; reflexivity))
    as (_ & Hprobe & _ & Hkeys).
  split; [apply Hprobe |].
  split; rewrite Hkeys; reflexivity.
Defined.

(** ** C10: internal sub-requests are GETs *)

Section SubRequests.
Context {BE : Backend} {LIB : Library}.


End SubRequests.


(** * Further properties of the middleware *)

(** ** Sub-request environments *)

Section SubRequestEnvironments.
Context {BE : Backend}.

Lemma strip_ifs_lookup (e : env) (k : string) :
  _strip_ifs e !! k = if PyStr.startswith "HTTP_IF_" k then None else e !! k.
Proof.
  unfold _strip_ifs. destruct (PyStr.startswith "HTTP_IF_" k) eqn:Hs.
  - apply map_lookup_filter_None. right. intros v _ Hv. cbn [fst] in Hv. congruence.
  - destruct (e !! k) as [v|] eqn:Hk.
    + apply map_lookup_filter_Some. split; [exact Hk | exact Hs].
    + apply map_lookup_filter_None. now left.
Qed.

(** X1.  The environments of the error-page sub-request, of the listing
    sub-request and of the pseudo-directory probe are the original
    environment without any key that starts with [HTTP_IF_], with
    [REQUEST_METHOD] and [PATH_INFO] overwritten and, for the listing and
    the probe, [QUERY_STRING] too.  Every other key of the original request
    is passed on as it is; the error-page sub-request keeps the query string
    of the original request. *)
Theorem sub_requests_copy_all_but_conditionals
    (cpath suffix o : string) (code : Z) (prefix : option string) (e : env) (k : string) :
  error_env cpath code suffix e !! k
  = (if decide (k = "REQUEST_METHOD") then Some (EStr "GET")
     else if decide (k = "PATH_INFO")
          then Some (EStr (cpath +:+ "/" +:+ PyStr.str_of_int code +:+ suffix))
     else if PyStr.startswith "HTTP_IF_" k then None
     else e !! k)
  /\ listing_env cpath prefix e !! k
     = (if decide (k = "QUERY_STRING")
        then Some (EStr (if truthy prefix
                         then "delimiter=/&format=json" +:+ "&prefix="
                                +:+ PyStr.quote (fmt prefix)
                         else "delimiter=/&format=json"))
        else if decide (k = "PATH_INFO") then Some (EStr cpath)
        else if decide (k = "REQUEST_METHOD") then Some (EStr "GET")
        else if PyStr.startswith "HTTP_IF_" k then None
        else e !! k)
  /\ probe_env cpath o e !! k
     = (if decide (k = "QUERY_STRING")
        then Some (EStr ("limit=1&format=json&delimiter=/&limit=1&prefix="
                           +:+ PyStr.quote (o +:+ "/")))
        else if decide (k = "PATH_INFO") then Some (EStr cpath)
        else if decide (k = "REQUEST_METHOD") then Some (EStr "GET")
        else if PyStr.startswith "HTTP_IF_" k then None
        else e !! k).
Proof.
  unfold error_env, listing_env, probe_env. cbv zeta.
  repeat split; repeat case_decide; subst;
    rewrite ?lookup_insert_eq, ?lookup_insert_ne by done;
    rewrite ?lookup_insert_eq, ?lookup_insert_ne by done;
    rewrite ?lookup_insert_eq, ?lookup_insert_ne by done;
    try reflexivity; apply strip_ifs_lookup.
Qed.

End SubRequestEnvironments.

(** ** The object path *)

Section ObjectPath.
Context {BE : Backend} {LIB : Library}.

(** X2.  An object request whose GET is answered 2xx or 3xx: the reply of
    the backend goes to the client as it is, after that one backend call;
    the metadata of the container is not resolved and the cache is not
    touched. *)
Theorem object_found_forwarded_verbatim
    (w : world) (e : env) (r : wsgi_reply) (b : backend_state) (c : Z) :
  app e (backend w) = (r, b) ->
  status_line_int (status r) = Some c ->
  in_2_3 (hundreds c) = true ->
  _handle_object e client_start_response w
  = (Return (Some (body r)), after_reply (after_saved_call w e r b) r)
  /\ new_events w (after_reply (after_saved_call w e r b) r)
     = [EvApp e; EvStart (status r) (headers r) (exc_info r)]
  /\ cache (after_reply (after_saved_call w e r b) r) = cache w.
Proof.
  intros Ha Hs H23. split; [| split; [| reflexivity]].
  - unfold _handle_object. mgo. mdone.
  - apply new_events_app. unfold after_reply, after_saved_call. cbn [trace].
    now rewrite <- app_assoc.
Qed.

(** X3.  An object request whose GET fails with a status other than 404
    goes to error substitution at once: the metadata of the container is
    not resolved for this request, so the error suffix used is the one that
    an earlier request left in [self].  When [self] holds none, the failure
    goes to the client as it is after that one backend call. *)
Theorem object_failure_skips_metadata
    (w : world) (e : env) (r : wsgi_reply) (b : backend_state) (c : Z) :
  app e (backend w) = (r, b) ->
  status_line_int (status r) = Some c ->
  in_2_3 (hundreds c) = false ->
  c <> 404%Z ->
  _handle_object e client_start_response w
  = match _error_response (body r) e client_start_response (after_saved_call w e r b) with
    | (Return x, w') => (Return (Some x), w')
    | (Raise ex, w') => (Raise ex, w')
    end
  /\ _error (self (after_saved_call w e r b)) = _error (self w)
  /\ (truthy (_error (self w)) = false ->
      _handle_object e client_start_response w
      = (Return (Some (body r)), after_reply (after_saved_call w e r b) r)).
Proof.
  intros Ha Hs H23 H404. split; [| split; [reflexivity |]].
  - unfold _handle_object. mgo. reflexivity.
  - intros He. unfold _handle_object, _error_response. mgo. mdone.
Qed.

(** X4.  An object request whose GET is answered 404, in a container with
    an index, whose index sub-request is answered 2xx or 3xx: without a
    trailing slash the response is a 301 to the path followed by a slash;
    with a trailing slash the reply to the index sub-request goes to the
    client as it is. *)
Theorem object_index_found
    (w w2 : world) (e : env) (path_info : string) (ch : ascii)
    (r1 r2 : wsgi_reply) (b1 b2 : backend_state) (c2 : Z) :
  app e (backend w) = (r1, b1) ->
  status_line_int (status r1) = Some 404%Z ->
  _get_container_info e client_start_response (after_saved_call w e r1 b1)
  = (Return tt, w2) ->
  truthy (_index (self w2)) = true ->
  e !! "PATH_INFO" = Some (EStr path_info) ->
  PyStr.last_char path_info = Some ch ->
  let index_env :=
    <["PATH_INFO" :=
        EStr ((if negb (Ascii.eqb ch "/") then path_info +:+ "/" else path_info)
                +:+ fmt (_index (self w2)))]> e in
  app index_env (backend w2) = (r2, b2) ->
  status_line_int (status r2) = Some c2 ->
  in_2_3 (hundreds c2) = true ->
  let w3 := after_saved_call w2 index_env r2 b2 in
  (ch <> "/"%char ->
   let moved := HTTPMovedPermanently (path_info +:+ "/") e in
   _handle_object e client_start_response w
   = (Return (Some (body moved)), after_reply w3 moved))
  /\ (ch = "/"%char ->
      _handle_object e client_start_response w
      = (Return (Some (body r2)), after_reply w3 r2)).
Proof.
  intros Ha1 Hs1 Hi Ht Hp Hl index_env Ha2 Hs2 H23 w3. subst index_env w3. split.
  - intros Hch. apply Ascii.eqb_neq in Hch. rewrite Hch in *. cbn [negb] in *.
    unfold _handle_object. mgo. rewrite in_2_3_404. mgo. mdone.
  - intros ->. change (negb (Ascii.eqb "/" "/")) with false in *. cbv iota in *.
    unfold _handle_object. mgo. rewrite in_2_3_404. mgo.
    change (negb (Ascii.eqb "/" "/")) with false in *. cbv iota in *. mgo. mdone.
Qed.


End ObjectPath.

(** The object [a.txt] exists: its GET is answered with the object. *)
Lemma object_found_example :
  (_handle_object (LIB := Scenario.library) ScenarioSite.get_a_txt client_start_response
     (ScenarioSite.world_site "a.txt")).1
  = Return (Some ["hello"]).
Proof.
  destruct (object_found_forwarded_verbatim
              (BE := Scenario.table_backend) (LIB := Scenario.library)
              (ScenarioSite.world_site "a.txt") ScenarioSite.get_a_txt
              ScenarioSite.hello ScenarioSite.table_site 200%Z
              ltac:(vm_compute; reflexivity) eq_refl eq_refl) as [Hrun _].
  rewrite Hrun. reflexivity.
Defined.

(** The GET of [secret] is refused with 403 while [self] holds no error
    suffix, although the container has one: the 403 goes to the client as
    it is. *)
Lemma object_failure_example :
  (_handle_object (LIB := Scenario.library) ScenarioSite.get_secret client_start_response
     (ScenarioSite.world_site "secret")).1
  = Return (Some ["denied"]).
Proof.
  destruct (object_failure_skips_metadata
              (BE := Scenario.table_backend) (LIB := Scenario.library)
              (ScenarioSite.world_site "secret") ScenarioSite.get_secret
              ScenarioSite.forbidden ScenarioSite.table_site 403%Z
              ltac:(vm_compute; reflexivity) eq_refl eq_refl ltac:(discriminate))
    as (_ & _ & Hplain).
  rewrite (Hplain eq_refl). reflexivity.
Defined.

(** The GET of [docs], where [docs/index.html] exists, is redirected to
    [docs/]. *)
Lemma object_index_found_example :
  (_handle_object (LIB := Scenario.library) ScenarioSite.get_docs client_start_response
     (ScenarioSite.world_site "docs")).1
  = Return (Some (body (HTTPMovedPermanently (LIB := Scenario.library)
                          "/v1/acct/cont/docs/" ScenarioSite.get_docs))).
Proof.
  pose proof (object_index_found
                (BE := Scenario.table_backend) (LIB := Scenario.library)
                (ScenarioSite.world_site "docs")
                (ScenarioSite.resolved_after_miss "docs" ScenarioSite.get_docs)
                ScenarioSite.get_docs "/v1/acct/cont/docs" "s"%char
                ScenarioSite.not_found ScenarioSite.index_page) as H.
  specialize (H ScenarioSite.table_site ScenarioSite.table_site 200%Z).
  specialize (H ltac:(vm_compute; reflexivity) eq_refl ltac:(vm_compute; reflexivity)
                ltac:(vm_compute; reflexivity) ltac:(vm_compute; reflexivity) eq_refl).
  cbv zeta in H.
  specialize (H ltac:(vm_compute; reflexivity) eq_refl eq_refl).
  destruct H as [Hmoved _]. rewrite (Hmoved ltac:(discriminate)). reflexivity.
Defined.


(** ** The container root with a trailing slash, and the listing state *)

Section ContainerIndex.
Context {BE : Backend} {LIB : Library}.

(** X6.  A container root request with a trailing slash, in a container
    with an index: the index sub-request is the original environment with
    only [PATH_INFO] changed, to the path followed by the index name.  When
    it is answered 2xx or 3xx the reply goes to the client as it is; when it
    is answered 404 the container is listed without a prefix; any other
    answer goes to error substitution. *)
Theorem container_root_with_slash
    (w w1 : world) (e : env) (path_info : string)
    (r2 : wsgi_reply) (b2 : backend_state) (c2 : Z) :
  _get_container_info e client_start_response w = (Return tt, w1) ->
  truthy (_index (self w1)) = true ->
  e !! "PATH_INFO" = Some (EStr path_info) ->
  PyStr.last_char path_info = Some "/"%char ->
  let index_env := <["PATH_INFO" := EStr (path_info +:+ fmt (_index (self w1)))]> e in
  app index_env (backend w1) = (r2, b2) ->
  status_line_int (status r2) = Some c2 ->
  let w2 := after_saved_call w1 index_env r2 b2 in
  (forall k : string, k <> "PATH_INFO" -> index_env !! k = e !! k)
  /\ (in_2_3 (hundreds c2) = true ->
      _handle_container e client_start_response w = (Return (body r2), after_reply w2 r2))
  /\ (c2 = 404%Z ->
      _handle_container e client_start_response w
      = _listing e client_start_response None w2)
  /\ (in_2_3 (hundreds c2) = false -> c2 <> 404%Z ->
      _handle_container e client_start_response w
      = _error_response (body r2) e client_start_response w2).
Proof.
  intros Hi Ht Hp Hl index_env Ha2 Hs2 w2. subst index_env w2.
  split; [| split; [| split]].
  - intros k Hk. now rewrite lookup_insert_ne.
  - intros H23. assert (c2 <> 404%Z) by (intros ->; discriminate H23).
    unfold _handle_container. mgo. change (negb (Ascii.eqb "/" "/")) with false. mgo. mdone.
  - intros ->. unfold _handle_container. mgo.
    change (negb (Ascii.eqb "/" "/")) with false. mgo. reflexivity.
  - intros H23 H404. unfold _handle_container. mgo.
    change (negb (Ascii.eqb "/" "/")) with false. mgo. reflexivity.
Qed.

(** X7.  The listing state.  A listing sub-request that is not answered 2xx
    goes to error substitution with that failure.  One answered 2xx with an
    empty listing saves a 404 response and goes to error substitution with
    it.  One answered 2xx with a body that is not JSON makes [_listing]
    raise [ValueError]: nothing is sent to the client. *)
Theorem listing_failure_paths
    (w : world) (e : env) (prefix : option string) (r : wsgi_reply)
    (b : backend_state) (c : Z) :
  let lenv := listing_env (container_path (self w)) prefix e in
  app lenv (backend w) = (r, b) ->
  status_line_int (status r) = Some c ->
  let w1 := after_saved_call w lenv r b in
  (hundreds c <> 2%Z ->
   _listing e client_start_response prefix w
   = _error_response (body r) e client_start_response w1)
  /\ (hundreds c = 2%Z -> json_loads (String.concat "" (body r)) = Some [] ->
      _response_status (self (after_saved_reply w1 (HTTPNotFound e)))
      = Some "404 Not Found"
      /\ _listing e client_start_response prefix w
         = _error_response (body (HTTPNotFound e)) e client_start_response
             (after_saved_reply w1 (HTTPNotFound e)))
  /\ (hundreds c = 2%Z -> json_loads (String.concat "" (body r)) = None ->
      _listing e client_start_response prefix w = (Raise ValueError, w1)
      /\ client_starts (new_events w w1) = []).
Proof.
  intros lenv Ha Hs w1. subst lenv w1. split; [| split].
  - intros H2. unfold _listing. mgo. reflexivity.
  - intros H2 Hj. split; [reflexivity |]. unfold _listing. mgo. reflexivity.
  - intros H2 Hj. split; [unfold _listing; mgo; reflexivity |].
    now erewrite new_events_app by reflexivity.
Qed.

End ContainerIndex.

(** The GET of [/v1/acct/cont/], where [index.html] exists, is answered
    with the index page. *)
Lemma container_index_example :
  (_handle_container (LIB := Scenario.library) ScenarioSite.get_root_slash
     client_start_response (ScenarioSite.world_site EmptyString)).1
  = Return ["<html>docs</html>"].
Proof.
  pose proof (container_root_with_slash
                (BE := Scenario.table_backend) (LIB := Scenario.library)
                (ScenarioSite.world_site EmptyString) ScenarioSite.resolved_root
                ScenarioSite.get_root_slash "/v1/acct/cont/"
                ScenarioSite.index_page) as H.
  specialize (H ScenarioSite.table_site 200%Z).
  specialize (H ltac:(vm_compute; reflexivity) ltac:(vm_compute; reflexivity)
                ltac:(vm_compute; reflexivity) eq_refl).
  cbv zeta in H. specialize (H ltac:(vm_compute; reflexivity) eq_refl).
  destruct H as (_ & Hfound & _). rewrite (Hfound eq_refl). reflexivity.
Defined.

(** The listing query of the container is answered 404: the failure goes
    to error substitution. *)
Lemma listing_failure_example :
  _listing (LIB := Scenario.library) ScenarioSite.get_root_slash client_start_response
    None (ScenarioSite.world_site EmptyString)
  = _error_response ["not found"] ScenarioSite.get_root_slash client_start_response
      (after_saved_call (ScenarioSite.world_site EmptyString)
         (listing_env "/v1/acct/cont" None ScenarioSite.get_root_slash)
         ScenarioSite.not_found ScenarioSite.table_site).
Proof.
  pose proof (listing_failure_paths
                (BE := Scenario.table_backend) (LIB := Scenario.library)
                (ScenarioSite.world_site EmptyString) ScenarioSite.get_root_slash None
                ScenarioSite.not_found) as H.
  specialize (H ScenarioSite.table_site 404%Z).
  cbv zeta in H. specialize (H ltac:(vm_compute; reflexivity) eq_refl).
  destruct H as [Hfail _]. exact (Hfail ltac:(discriminate)).
Defined.

(** ** The cache of the metadata resolver *)

Section MetadataCache.
Context {BE : Backend} {LIB : Library}.

Lemma cache_get_set (t t0 timeout : Z) (k : string) (v : web_config) (c : cache_t) :
  cache_get t k (cache_set t0 k v timeout c)
  = if (t <? t0 + timeout)%Z then Some v else None.
Proof. unfold cache_get, cache_set. now rewrite lookup_insert_eq. Qed.

(** X8.  A resolution with a cache client that finds no entry and whose
    probe is answered 2xx installs the three stripped header values and
    stores them under the key of the container.  A later resolution for the
    same container on that cache, sooner than [cache_timeout] after the
    probe, installs the same three values without calling the backend and
    without writing the cache; one at or after that instant sends the
    probe again. *)
Theorem fetched_metadata_cached_until_timeout
    (w : world) (e : env) (sr : hook) (r : wsgi_reply) (b : backend_state) (c : Z) :
  cache_from_env e = true ->
  cache_get (now w) (memcache_key (self w)) (cache w) = None ->
  app (container_info_request (container_path (self w)) e) (backend w) = (r, b) ->
  status_line_int (status r) = Some c ->
  hundreds c = 2%Z ->
  let i := PyStr.strip (headers_get (headers r) "x-container-meta-index" "") in
  let css := PyStr.strip (headers_get (headers r) "x-container-meta-listing-css" "") in
  let er := PyStr.strip (headers_get (headers r) "x-container-meta-error" "") in
  exists w1 : world,
    _get_container_info e sr w = (Return tt, w1)
    /\ (_index (self w1) = Some i /\ _error (self w1) = Some er
        /\ _listing_css (self w1) = Some css)
    /\ (forall (w2 : world) (e2 : env) (sr2 : hook),
          cache w2 = cache w1 ->
          memcache_key (self w2) = memcache_key (self w) ->
          cache_from_env e2 = true ->
          ((now w2 < now w + cache_timeout (self w))%Z ->
           exists w3 : world,
             _get_container_info e2 sr2 w2 = (Return tt, w3)
             /\ (_index (self w3) = Some i /\ _error (self w3) = Some er
                 /\ _listing_css (self w3) = Some css)
             /\ app_envs (new_events w2 w3) = []
             /\ cache w3 = cache w2)
          /\ ((now w + cache_timeout (self w) <= now w2)%Z ->
              app_envs (new_events w2 (_get_container_info e2 sr2 w2).2)
              = [container_info_request (container_path (self w2)) e2])).
Proof.
  intros Hce Hmiss Ha Hc H2 i css er.
  eexists. split.
  { apply (get_container_info_fetched w e sr r b c); auto. }
  rewrite Hce. split; [now repeat split |].
  intros w2 e2 sr2 Hc2 Hk Hce2. cbn [cache] in Hc2. split.
  - intros Hlt.
    assert (cache_get (now w2) (memcache_key (self w2)) (cache w2) = Some (i, er, css))
      as Hhit.
    { rewrite Hc2, Hk, cache_get_set.
      destruct (Z.ltb_spec (now w2) (now w + cache_timeout (self w))); [reflexivity | lia]. }
    eexists. split; [apply (get_container_info_hit w2 e2 sr2 i er css Hce2 Hhit) |].
    split; [now repeat split |]. split; [| reflexivity].
    now erewrite new_events_app by reflexivity.
  - intros Hge. apply get_container_info_miss_probes. right.
    rewrite Hc2, Hk, cache_get_set.
    destruct (Z.ltb_spec (now w2) (now w + cache_timeout (self w))); [lia | reflexivity].
Qed.

End MetadataCache.

(** The metadata of [/v1/acct/cont] is fetched at 1000 with a timeout of
    300: a second resolution at 1000 is served from the cache. *)
Lemma metadata_cache_example :
  app_envs
    (new_events ScenarioSite.world_cached
       (_get_container_info (LIB := Scenario.library) ScenarioSite.get_root_cached
          client_start_response ScenarioSite.world_cached).2)
  = [].
Proof.
  destruct (fetched_metadata_cached_until_timeout
              (BE := Scenario.table_backend) (LIB := Scenario.library)
              (ScenarioSite.world_site EmptyString) ScenarioSite.get_root_cached
              client_start_response
              (Reply "204 No Content"
                 [("X-Container-Meta-Index", "index.html");
                  ("X-Container-Meta-Error", "error.html")] None [])
              ScenarioSite.table_site 204%Z
              ltac:(vm_compute; reflexivity) ltac:(vm_compute; reflexivity)
              ltac:(vm_compute; reflexivity) eq_refl eq_refl)
    as (w1 & Hrun & _ & Hlater).
  assert (w1 = ScenarioSite.world_cached) as ->.
  { apply (f_equal snd) in Hrun. symmetry. exact Hrun. }
  destruct (Hlater ScenarioSite.world_cached ScenarioSite.get_root_cached
              client_start_response eq_refl ltac:(vm_compute; reflexivity)
              ltac:(vm_compute; reflexivity)) as [Hsoon _].
  destruct (Hsoon ltac:(vm_compute; reflexivity)) as (w3 & Hrun3 & _ & Hnone & _).
  rewrite Hrun3. exact Hnone.
Defined.

(** ** The entry point *)

Section EntryPoint.
Context {BE : Backend} {LIB : Library}.

(** X9.  Requests outside static web handling go to the backend as they
    are and its reply goes to the client as it is: a path that
    [split_path] refuses; a method other than HEAD and GET; a HEAD or GET
    of an authenticated user without web mode; a HEAD or GET of an account.
    So does a PUT or POST, with a cache client, to an object or to an
    account: no cache entry is deleted for it. *)
Theorem requests_outside_static_web_pass_through
    (w : world) (e : env) (path_info : string) (r : wsgi_reply) (b : backend_state) :
  e !! "PATH_INFO" = Some (EStr path_info) ->
  app e (backend w) = (r, b) ->
  (split_path path_info = None ->
   __call__ e client_start_response w = (Return (Some (body r)), after_forward w e r b))
  /\
  (forall (v a method : string) (c o : option string),
     split_path path_info = Some (v, a, c, o) ->
     e !! "REQUEST_METHOD" = Some (EStr method) ->
     (cache_from_env e && is_write method = false /\
      (is_read method = false
       \/ env_truthy e "REMOTE_USER" && negb (web_mode e) = true
       \/ (truthy o = false /\ truthy c = false))
      \/
      (cache_from_env e && is_write method = true /\
       (truthy o = true \/ truthy c = false))) ->
     __call__ e client_start_response w
     = (Return (Some (body r)), after_forward (with_path w v a c o) e r b)
     /\ cache (after_forward (with_path w v a c o) e r b) = cache w).
Proof.
  intros Hp Ha. split.
  - intros Hs. unfold __call__. mgo. mdone.
  - intros v a method c o Hs Hm Hcases. split; [| reflexivity].
    unfold __call__. mgo.
    destruct Hcases as [[Hcw Hwhy] | [Hcw Hwhy]]; rewrite Hcw.
    + destruct Hwhy as [Hr | [Hauth | [Ho Hc]]].
      * rewrite Hr. cbn [negb orb]. mgo. mdone.
      * rewrite Hauth, orb_true_r. mgo. mdone.
      * destruct (negb (is_read method) || _); mgo; mdone.
    + destruct Hwhy as [Ho | Hc].
      * rewrite Ho. cbn [negb andb]. mgo. mdone.
      * rewrite Hc, andb_false_r. mgo. mdone.
Qed.

(** X10.  A HEAD or GET of an anonymous user, or of an authenticated user
    whose [X-Web-Mode] header is one of [TRUE_VALUES], is handled by
    [_handle_object] when the path has an object, and by
    [_handle_container] when it has a container and no object, with the
    split path stored in [self]; a cache client in the environment changes
    nothing to that. *)
Theorem static_web_dispatch
    (w : world) (e : env) (path_info method v a : string) (c o : option string) :
  e !! "PATH_INFO" = Some (EStr path_info) ->
  split_path path_info = Some (v, a, c, o) ->
  e !! "REQUEST_METHOD" = Some (EStr method) ->
  is_read method = true ->
  env_truthy e "REMOTE_USER" = false \/ web_mode e = true ->
  (truthy o = true ->
   __call__ e client_start_response w
   = _handle_object e client_start_response (with_path w v a c o))
  /\ (truthy o = false -> truthy c = true ->
      __call__ e client_start_response w
      = match _handle_container e client_start_response (with_path w v a c o) with
        | (Return r, w') => (Return (Some r), w')
        | (Raise ex, w') => (Raise ex, w')
        end).
Proof.
  intros Hp Hs Hm Hr Hauth.
  assert (is_write method = false) as Hw.
  { unfold is_read, is_write in *.
    destruct (String.eqb_spec method "HEAD") as [->|]; [reflexivity |].
    destruct (String.eqb_spec method "GET") as [->|]; [reflexivity | discriminate]. }
  assert (env_truthy e "REMOTE_USER" && negb (web_mode e) = false) as Hgate.
  { destruct Hauth as [-> | ->]; [reflexivity | apply andb_false_r]. }
  split.
  - intros Ho. unfold __call__, with_path. mgo.
    rewrite ?andb_false_r. cbn [negb orb andb]. mgo. reflexivity.
  - intros Ho Hc. unfold __call__, with_path. mgo.
    rewrite ?andb_false_r. cbn [negb orb andb]. mgo. reflexivity.
Qed.

End EntryPoint.

(** The path [/healthcheck] is no storage path: the request goes to the
    backend and the 404 of the backend to the client. *)
Lemma pass_through_example :
  __call__ (LIB := Scenario.library) ScenarioSite.get_healthcheck client_start_response
    (ScenarioSite.world_site EmptyString)
  = (Return (Some ["not found"]),
     after_forward (ScenarioSite.world_site EmptyString) ScenarioSite.get_healthcheck
       ScenarioSite.not_found ScenarioSite.table_site).
Proof.
  destruct (requests_outside_static_web_pass_through
              (BE := Scenario.table_backend) (LIB := Scenario.library)
              (ScenarioSite.world_site EmptyString) ScenarioSite.get_healthcheck
              "/healthcheck" ScenarioSite.not_found ScenarioSite.table_site
              ltac:(vm_compute; reflexivity) ltac:(vm_compute; reflexivity))
    as [Hrefused _].
  exact (Hrefused eq_refl).
Defined.

(** The anonymous GET of [/v1/acct/cont/secret] is handled by
    [_handle_object]. *)
Lemma static_web_dispatch_example :
  __call__ (LIB := Scenario.library) ScenarioSite.get_secret client_start_response
    (ScenarioSite.world_site EmptyString)
  = _handle_object (LIB := Scenario.library) ScenarioSite.get_secret client_start_response
      (with_path (ScenarioSite.world_site EmptyString) "v1" "acct" (Some "cont")
         (Some "secret")).
Proof.
  destruct (static_web_dispatch
              (BE := Scenario.table_backend) (LIB := Scenario.library)
              (ScenarioSite.world_site EmptyString) ScenarioSite.get_secret
              "/v1/acct/cont/secret" "GET" "v1" "acct" (Some "cont") (Some "secret")
              eq_refl eq_refl eq_refl eq_refl (or_introl eq_refl))
    as [Hobject _].
  exact (Hobject eq_refl).
Defined.

(** ** More on the rendered listing *)

Section RenderedListing.
Context {LIB : Library}.

















End RenderedListing.

(** ** What error substitution and the listing state leave alone *)

Section Untouched.
Context {BE : Backend} {LIB : Library}.

Lemma error_response_keeps (w : world) (response : list string) (e : env) :
  keeps_configuration w (_error_response response e client_start_response w).2.
Proof.
  unfold _error_response, keeps_configuration. msimpl.
  repeat (first [ case_match | case_decide ]; msimpl; simplify_eq; cbn [snd]);
    cbn [cache now self]; done.
Qed.

Lemma keeps_configuration_trans (w1 w2 w3 : world) :
  keeps_configuration w1 w2 -> keeps_configuration w2 w3 -> keeps_configuration w1 w3.
Proof.
  unfold keeps_configuration. intros H1 H2.
  destruct H1 as (? & ? & ? & ? & ? & ? & ? & ? & ? & ?).
  destruct H2 as (? & ? & ? & ? & ? & ? & ? & ? & ? & ?).
  repeat split; congruence.
Qed.

(** X13.  Whatever the backend answers, and also when they raise, error
    substitution and the listing state leave the cache, the clock, the
    stored path and the resolved configuration ([_index], [_error],
    [_listing_css]) as they found them: of [self] they overwrite the saved
    response only. *)
Theorem substitution_and_listing_keep_configuration (w : world) (e : env) :
  (forall response : list string,
     keeps_configuration w (_error_response response e client_start_response w).2)
  /\ (forall prefix : option string,
        keeps_configuration w (_listing e client_start_response prefix w).2).
Proof.
  split; [intros response; apply error_response_keeps |].
  intros prefix. unfold _listing. msimpl.
  destruct (app _ _) as [r b]. msimpl.
  destruct (status_line_int (status r)) as [c|]; msimpl;
    [| unfold keeps_configuration; now repeat split].
  case_decide; msimpl.
  - eapply keeps_configuration_trans; [| apply error_response_keeps].
    unfold keeps_configuration. now repeat split.
  - destruct (json_loads _) as [[|x l]|]; msimpl.
    + eapply keeps_configuration_trans; [| apply error_response_keeps].
      unfold keeps_configuration. now repeat split.
    + destruct (e !! "PATH_INFO") as [[p|]|]; msimpl;
        unfold keeps_configuration; now repeat split.
    + unfold keeps_configuration. now repeat split.
Qed.

End Untouched.

(** ** The account quota middleware *)

Section AccountQuotaVerdicts.
Import AccountQuota.
Variable py_int : string -> option Z.
Variable head : string -> head_response.
Variable get_account_info : option account_info.

Local Abbreviation call := (AccountQuota.__call__ py_int head get_account_info).

(** X14. The two answers about the quota header.  [__call__] answers 403
    exactly to a POST or PUT on a path with an account that is not a
    reseller's and carries [X-Account-Meta-Quota-Bytes], whatever its value;
    it answers 400 exactly to such a request of a reseller whose header is
    neither empty nor made of digits only. *)
Theorem quota_header_answers (req : request) :
  (call req = Return HTTPForbidden
   <-> is_write req = true
       /\ is_Some (split_path_2_4 req)
       /\ reseller_request req = false
       /\ is_Some (new_quota req))
  /\ (call req = Return HTTPBadRequest
      <-> is_write req = true
          /\ is_Some (split_path_2_4 req)
          /\ reseller_request req = true
          /\ exists q : string,
               new_quota req = Some q /\ q <> "" /\ isdigit q = false).
Proof.
  unfold AccountQuota.__call__.
  destruct (is_write req) eqn:Hw; cbn [negb].
  2:{ split; split; intros H; try discriminate H; destruct H as (? & _); discriminate. }
  destruct (split_path_2_4 req) as [[[[ver acc] cont] obj]|] eqn:Hs.
  2:{ split; split; intros H; try discriminate H;
      destruct H as (_ & [? ?] & _); discriminate. }
  destruct (reseller_request req) eqn:Hr.
  - split.
    { split; intros H; [case_match; discriminate | destruct H as (_ & _ & ? & _); discriminate]. }
    destruct (new_quota req) as [[|ch q]|] eqn:Hq; cbn [truthy default from_option id andb].
    + split; intros H; [discriminate H |].
      destruct H as (_ & _ & _ & q' & Hq' & Hne & _). congruence.
    + destruct (isdigit (String ch q)) eqn:Hd; cbn [negb andb].
      * split; intros H; [discriminate H |].
        destruct H as (_ & _ & _ & q' & Hq' & _ & Hd'). congruence.
      * split; intros _; [| reflexivity].
        repeat split; eauto.
    + split; intros H; [discriminate H |].
      destruct H as (_ & _ & _ & q' & Hq' & _). discriminate.
  - split.
    2:{ split; intros H; [| destruct H as (_ & _ & ? & _); discriminate].
        exfalso. revert H. repeat (case_match; try discriminate). }
    destruct (new_quota req) as [q|] eqn:Hq.
    + split; intros _; [| reflexivity]. repeat split; eauto.
    + split; intros H; [| destruct H as (_ & _ & _ & [? ?]); discriminate].
      exfalso. revert H. repeat (case_match; try discriminate).
Qed.

(** X15. The answer about the size.  [__call__] answers 413 exactly to a
    POST or PUT on a path with an account, not a reseller's and without the
    quota header, when the account information is there with a truthy
    [bytes], and the quota read from it is at least 0 and less than the
    bytes used plus the size counted for the request.  An account whose
    [meta] has no [quota-bytes] is never answered 413. *)
Theorem quota_exceeded_answer (req : request) :
  (call req = Return HTTPRequestEntityTooLarge
   <-> is_write req = true
       /\ reseller_request req = false
       /\ new_quota req = None
       /\ exists (ver acc : string) (cont obj : option string) (info : account_info)
                 (used size quota : Z),
            split_path_2_4 req = Some (ver, acc, cont, obj)
            /\ counted_length py_int head req ver acc obj = Return size
            /\ get_account_info = Some info
            /\ value_truthy (bytes info) = true
            /\ int py_int (bytes info) = Return used
            /\ quota_of py_int info = Return quota
            /\ (0 <= quota < used + size)%Z)
  /\ (forall info : account_info,
        get_account_info = Some info -> quota_bytes info = None ->
        call req <> Return HTTPRequestEntityTooLarge).
Proof.
  assert (call req = Return HTTPRequestEntityTooLarge
          -> is_write req = true
             /\ reseller_request req = false
             /\ new_quota req = None
             /\ exists (ver acc : string) (cont obj : option string)
                       (info : account_info) (used size quota : Z),
                  split_path_2_4 req = Some (ver, acc, cont, obj)
                  /\ counted_length py_int head req ver acc obj = Return size
                  /\ get_account_info = Some info
                  /\ value_truthy (bytes info) = true
                  /\ int py_int (bytes info) = Return used
                  /\ quota_of py_int info = Return quota
                  /\ (0 <= quota < used + size)%Z) as Honly.
  { unfold AccountQuota.__call__.
    destruct (is_write req) eqn:Hw; cbn [negb]; [| discriminate].
    destruct (split_path_2_4 req) as [[[[ver acc] cont] obj]|] eqn:Hs; [| discriminate].
    destruct (reseller_request req) eqn:Hr.
    { case_match; discriminate. }
    destruct (new_quota req) as [q|] eqn:Hq; [discriminate |].
    destruct (counted_length py_int head req ver acc obj) as [size|] eqn:Hsize;
      [| discriminate].
    destruct get_account_info as [info|]; [| discriminate].
    destruct (value_truthy (bytes info)) eqn:Hb; cbn [negb]; [| discriminate].
    destruct (int py_int (bytes info)) as [used|] eqn:Hu; [| discriminate].
    destruct (quota_of py_int info) as [quota|] eqn:Hqq; [| discriminate].
    destruct ((0 <=? quota)%Z && (quota <? used + size)%Z) eqn:Hcmp; [| discriminate].
    intros _. apply andb_true_iff in Hcmp as [H0 H1].
    repeat split.
    exists ver, acc, cont, obj, info, used, size, quota.
    repeat split; try reflexivity; try assumption; lia. }
  split; [split; [exact Honly |] |].
  - intros (Hw & Hr & Hq & ver & acc & cont & obj & info & used & size & quota
            & Hs & Hsize & Hinfo & Hb & Hu & Hqq & H0 & H1).
    unfold AccountQuota.__call__.
    rewrite Hw, Hs, Hr, Hq, Hsize, Hinfo, Hb, Hu, Hqq. cbn [negb].
    replace (0 <=? quota)%Z with true by (symmetry; apply Z.leb_le; lia).
    replace (quota <? used + size)%Z with true by (symmetry; apply Z.ltb_lt; lia).
    reflexivity.
  - intros info Hinfo Hnone Hcall.
    destruct (Honly Hcall) as (_ & _ & _ & ver & acc & cont & obj & info' & used & size
                               & quota & _ & _ & Hinfo' & _ & _ & Hqq & H0 & _).
    assert (info' = info) as -> by congruence.
    unfold quota_of in Hqq. rewrite Hnone in Hqq. cbn in Hqq.
    assert (quota = (-1)%Z) by congruence. lia.
Qed.

(** X16. The size check is monotone in the length of the request.  For a
    request that is not a copy, if [__call__] answers 413 when the request
    has a content length of [n], it answers 413 when it has any greater
    length; and if it passes the request on with the greater length, it
    passes it on with the smaller. *)
Theorem quota_monotone_in_length (req : request) (n m : option Z)
    (Hcopy : is_copy req = false) (Hle : (or_0 n <= or_0 m)%Z) :
  (call (with_content_length req (Return n)) = Return HTTPRequestEntityTooLarge ->
   call (with_content_length req (Return m)) = Return HTTPRequestEntityTooLarge)
  /\ (call (with_content_length req (Return m)) = Return PassOn ->
      call (with_content_length req (Return n)) = Return PassOn).
Proof.
  unfold AccountQuota.__call__, is_write, is_copy, counted_length in *.
  cbn [with_content_length method split_path_2_4 new_quota reseller_request
       copy_from content_length] in *.
  destruct (_ || _); cbn [negb]; [| split; intros H; exact H].
  destruct (split_path_2_4 req) as [[[[ver acc] cont] obj]|]; [| split; intros H; exact H].
  destruct (reseller_request req); [split; intros H; exact H |].
  destruct (new_quota req); [split; intros H; exact H |].
  rewrite Hcopy.
  destruct get_account_info as [info|]; [| split; intros H; exact H].
  destruct (negb _); [split; intros H; exact H |].
  destruct (int py_int (bytes info)) as [used|]; [| split; intros H; exact H].
  destruct (quota_of py_int info) as [quota|]; [| split; intros H; exact H].
  destruct (0 <=? quota)%Z; cbn [andb]; [| split; intros H; exact H].
  destruct (quota <? used + or_0 n)%Z eqn:Hn, (quota <? used + or_0 m)%Z eqn:Hm;
    split; intros H; try exact H; try discriminate H.
  all: apply Z.ltb_lt in Hn; apply Z.ltb_ge in Hm; lia.
Qed.

(** X17. A copy is counted by the size of its source.  For a request that
    names an object and a non-empty [X-Copy-From], and whose own content
    length can be read, [__call__] answers as it does to the same request
    without [X-Copy-From] whose content length is what [get_object_size]
    returns for the source; when the HEAD of the source is not a success,
    that is as to the request without a content length, which counts 0.
    So the content length of the copy request itself plays no part. *)
Theorem quota_copy_counts_source (req : request) (n size : option Z)
    (Hcopy : is_copy req = true) (Hlen : content_length req = Return n)
    (Hsize : get_object_size py_int head (copy_source req) = Return size) :
  call req = call (with_content_length (without_copy_from req) (Return size))
  /\ (is_success (status_int (head (copy_source req))) = false -> size = None).
Proof.
  split.
  - unfold AccountQuota.__call__, is_write, is_copy, copy_source, counted_length in *.
    cbn [with_content_length without_copy_from method split_path_2_4 new_quota
         reseller_request copy_from content_length] in *.
    destruct (split_path_2_4 req) as [[[[ver acc] cont] obj]|]; [| discriminate].
    rewrite Hlen, Hcopy, Hsize.
    replace (truthy obj && truthy None) with false by (destruct (truthy obj); reflexivity).
    reflexivity.
  - intros Hfail. unfold get_object_size in Hsize. rewrite Hfail in Hsize. congruence.
Qed.

End AccountQuotaVerdicts.

Lemma quota_monotone_example :
  ScenarioQuota.call (ScenarioQuota.put 200) = Return AccountQuota.HTTPRequestEntityTooLarge
  /\ ScenarioQuota.call (ScenarioQuota.put 300)
     = Return AccountQuota.HTTPRequestEntityTooLarge
  /\ ScenarioQuota.call (ScenarioQuota.put 100) = Return AccountQuota.PassOn
  /\ ScenarioQuota.call (ScenarioQuota.put 50) = Return AccountQuota.PassOn.
Proof.
  pose proof (quota_monotone_in_length PyStr.int_of_str ScenarioQuota.head
                (Some ScenarioQuota.info) (ScenarioQuota.put 0) (Some 200%Z) (Some 300%Z)
                eq_refl) as Hup.
  pose proof (quota_monotone_in_length PyStr.int_of_str ScenarioQuota.head
                (Some ScenarioQuota.info) (ScenarioQuota.put 0) (Some 50%Z) (Some 100%Z)
                eq_refl) as Hdown.
  destruct Hup as [Hup _]; [vm_compute; discriminate |].
  destruct Hdown as [_ Hdown]; [vm_compute; discriminate |].
  split; [vm_compute; reflexivity |].
  split; [apply Hup; vm_compute; reflexivity |].
  split; [vm_compute; reflexivity |].
  apply Hdown; vm_compute; reflexivity.
Defined.

Lemma quota_copy_example :
  ScenarioQuota.call ScenarioQuota.copy_big
  = ScenarioQuota.call (ScenarioQuota.put 500)
  /\ ScenarioQuota.call (ScenarioQuota.put 500)
     = Return AccountQuota.HTTPRequestEntityTooLarge
  /\ ScenarioQuota.call (ScenarioQuota.put 0) = Return AccountQuota.PassOn.
Proof.
  destruct (quota_copy_counts_source PyStr.int_of_str ScenarioQuota.head
              (Some ScenarioQuota.info) ScenarioQuota.copy_big (Some 0%Z) (Some 500%Z)
              eq_refl eq_refl eq_refl) as [Hcall _].
  split; [exact Hcall |].
  split; vm_compute; reflexivity.
Defined.
